(** * Resolver reconciliation of the AppSync component (lib/resolvers.js)

    A shallow embedding of [createOrUpdateResolvers] and
    [removeObsoleteResolvers].  JavaScript objects with a fixed shape are
    records whose fields are [option]s ([None] is [undefined]; a key bound to
    [undefined] and a missing key are not told apart), the injected AppSync
    client is a record of response functions, and an asynchronous computation
    is the list of the remote calls it issues together with its outcome. *)

From Stdlib Require Import String Ascii List Bool Arith Lia Permutation.
Import ListNotations.
Open Scope string_scope.
Open Scope list_scope.

(** ** JavaScript values and objects *)

(** The double-quote character, as a string. *)
Definition dquote : string := String "034"%char EmptyString.

(** Strings or [undefined]: Ramda's [equals] and [isNil] on them. *)
Definition equals (a b : option string) : bool :=
  match a, b with
  | Some x, Some y => String.eqb x y
  | None, None => true
  | _, _ => false
  end.

Definition isNil {A : Type} (a : option A) : bool :=
  match a with
  | None => true
  | Some _ => false
  end.

(** What a template literal prints for a string or [undefined]. *)
Definition show (a : option string) : string :=
  match a with
  | Some s => s
  | None => "undefined"
  end.

(** The shapes of the values held by the properties of a resolver object. *)
Inductive Value : Type :=
| Undefined
| Str (s : string)
| Functions (names : option (list string)).

Definition ofString (a : option string) : Value :=
  match a with
  | Some s => Str s
  | None => Undefined
  end.

Fixpoint names_eqb (l1 l2 : list string) : bool :=
  match l1, l2 with
  | [], [] => true
  | x :: r1, y :: r2 => String.eqb x y && names_eqb r1 r2
  | _, _ => false
  end.

Definition Value_eqb (v w : Value) : bool :=
  match v, w with
  | Undefined, Undefined => true
  | Str s, Str t => String.eqb s t
  | Functions None, Functions None => true
  | Functions (Some l1), Functions (Some l2) => names_eqb l1 l2
  | _, _ => false
  end.

(** Objects are read by property name. *)
Class JsObject (A : Type) : Type := prop : string -> A -> Value.

(** ** The data model *)

(** [pipelineConfig]: [{}] is [{| functions := None |}]. *)
Record PipelineConfig : Type := { functions : option (list string) }.

(** A declared resolver ([config.mappingTemplates]), also after the stages
    have merged [requestMappingTemplate], [responseMappingTemplate] and
    [mode] into it, and as an entry of [state.mappingTemplates]. *)
Record MappingTemplate : Type := {
  dataSource : option string;
  type : option string;
  field : option string;
  request : option string;
  response : option string;
  kind : option string;
  pipelineConfig : option PipelineConfig;
  requestMappingTemplate : option string;
  responseMappingTemplate : option string;
  mode : option string
}.

#[export] Instance MappingTemplate_object : JsObject MappingTemplate :=
  fun k r =>
    if String.eqb k "dataSource" then ofString (dataSource r)
    else if String.eqb k "type" then ofString (type r)
    else if String.eqb k "field" then ofString (field r)
    else if String.eqb k "request" then ofString (request r)
    else if String.eqb k "response" then ofString (response r)
    else if String.eqb k "kind" then ofString (kind r)
    else if String.eqb k "pipelineConfig" then
      match pipelineConfig r with
      | Some c => Functions (functions c)
      | None => Undefined
      end
    else if String.eqb k "requestMappingTemplate" then ofString (requestMappingTemplate r)
    else if String.eqb k "responseMappingTemplate" then ofString (responseMappingTemplate r)
    else if String.eqb k "mode" then ofString (mode r)
    else Undefined.

(** An entry of [config.functions]. *)
Record FunctionConfig : Type := {
  name : option string;
  functionId : option string
}.

(** [config]; its [functions] are [configFunctions] here, the name
    [functions] being taken by [pipelineConfig.functions]. *)
Record Config : Type := {
  apiId : string;
  mappingTemplates : list MappingTemplate;
  configFunctions : list FunctionConfig
}.

(** [state]; its [mappingTemplates] are [stateMappingTemplates] here. *)
Record State : Type := { stateMappingTemplates : list MappingTemplate }.

(** The resolver objects of the remote service. *)
Module Aws.

Record Resolver : Type := {
  typeName : option string;
  fieldName : option string;
  dataSourceName : option string;
  requestMappingTemplate : option string;
  responseMappingTemplate : option string;
  kind : option string;
  pipelineConfig : option PipelineConfig
}.

End Aws.

(** A fetched resolver after [merge(resolver, {type, field, dataSource})]. *)
Module Deployed.

Record Resolver : Type := {
  resolver : Aws.Resolver;
  type : option string;
  field : option string;
  dataSource : option string
}.

End Deployed.

#[export] Instance Deployed_object : JsObject Deployed.Resolver :=
  fun k d =>
    if String.eqb k "type" then ofString (Deployed.type d)
    else if String.eqb k "field" then ofString (Deployed.field d)
    else if String.eqb k "dataSource" then ofString (Deployed.dataSource d)
    else if String.eqb k "typeName" then ofString (Aws.typeName (Deployed.resolver d))
    else if String.eqb k "fieldName" then ofString (Aws.fieldName (Deployed.resolver d))
    else if String.eqb k "dataSourceName" then ofString (Aws.dataSourceName (Deployed.resolver d))
    else if String.eqb k "requestMappingTemplate" then
      ofString (Aws.requestMappingTemplate (Deployed.resolver d))
    else if String.eqb k "responseMappingTemplate" then
      ofString (Aws.responseMappingTemplate (Deployed.resolver d))
    else if String.eqb k "kind" then ofString (Aws.kind (Deployed.resolver d))
    else if String.eqb k "pipelineConfig" then
      match Aws.pipelineConfig (Deployed.resolver d) with
      | Some c => Functions (functions c)
      | None => Undefined
      end
    else Undefined.

(** ** Errors, remote calls and asynchronous computations *)

Inductive Error : Type :=
| Thrown (message : string)            (* [throw new Error(message)] *)
| TypeError                            (* destructuring [undefined] *)
| DuplicatesError                      (* raised by [checkForDuplicates] *)
| ServiceError (code : option string). (* a rejected remote call, with [error.code] *)

Definition errorCode (e : Error) : option string :=
  match e with
  | ServiceError c => c
  | _ => None
  end.

Inductive Result (A : Type) : Type :=
| Ok (a : A)
| Rejected (e : Error).

Arguments Ok {A} a.
Arguments Rejected {A} e.

Definition isRejected {A : Type} (r : Result A) : bool :=
  match r with
  | Ok _ => false
  | Rejected _ => true
  end.

Record ListResolversRequest : Type := {
  lr_apiId : string;
  lr_typeName : option string;
  lr_nextToken : option string
}.

Record GetDataSourceRequest : Type := {
  gd_apiId : string;
  gd_name : option string
}.

(** [params] of [createResolver] and [updateResolver]; a key never assigned
    is [None]. *)
Record ResolverParams : Type := {
  p_apiId : string;
  p_fieldName : option string;
  p_requestMappingTemplate : option string;
  p_responseMappingTemplate : option string;
  p_typeName : option string;
  p_kind : option string;
  p_pipelineConfig : option PipelineConfig;
  p_dataSourceName : option string
}.

Record DeleteResolverRequest : Type := {
  dr_apiId : string;
  dr_fieldName : option string;
  dr_typeName : option string
}.

Inductive Call : Type :=
| ListResolvers (req : ListResolversRequest)
| GetDataSource (req : GetDataSourceRequest)
| CreateResolver (params : ResolverParams)
| UpdateResolver (params : ResolverParams)
| DeleteResolver (req : DeleteResolverRequest).

(** The answer of the service to "list resolvers for type": a page that ends
    the listing, a page with a continuation token, or a failed request. *)
Inductive Pages : Type :=
| LastPage (resolvers : list Aws.Resolver)
| NextPage (resolvers : list Aws.Resolver) (nextToken : string) (rest : Pages)
| FailedPage (error : Error).

Record DataSource : Type := { ds_type : option string }.

(** The injected client: what each operation answers. *)
Record AppSync : Type := {
  listResolvers : string -> option string -> Pages;
  getDataSource : GetDataSourceRequest -> Result DataSource;
  createResolver : ResolverParams -> option Error;
  updateResolver : ResolverParams -> option Error;
  deleteResolver : DeleteResolverRequest -> option Error
}.

(** An asynchronous computation: the remote calls it issues and how it
    settles.  The logger is fire-and-forget and is left out. *)
Definition Async (A : Type) : Type := (list Call * Result A)%type.

Definition resolve {A : Type} (a : A) : Async A := ([], Ok a).

Definition await {A B : Type} (m : Async A) (k : A -> Async B) : Async B :=
  match m with
  | (t, Ok a) => let (t', r) := k a in (t ++ t', r)
  | (t, Rejected e) => (t, Rejected e)
  end.

Notation "x <- m ;; k" := (await m (fun x => k))
  (at level 61, m at next level, right associativity).

(** One remote call and its answer. *)
Definition send {A : Type} (c : Call) (answer : Result A) : Async A :=
  ([c], answer).

Definition settled (answer : option Error) : Result unit :=
  match answer with
  | None => Ok tt
  | Some e => Rejected e
  end.

(** [Promise.all] over branches that were all started: every branch issues
    its calls, the aggregate rejects as soon as one branch does.  The calls
    are recorded branch after branch, which is one of the orders the event
    loop allows, and the rejection kept is that of the first rejected branch
    of the list: the source fixes the order of the calls of different
    branches only where they are issued synchronously inside [map], and does
    not fix which rejection wins. *)
Fixpoint promiseAll {A : Type} (branches : list (Async A)) : Async (list A) :=
  match branches with
  | [] => resolve []
  | (t, r) :: rest =>
      let (t', rs) := promiseAll rest in
      (t ++ t',
       match r, rs with
       | Rejected e, _ => Rejected e
       | Ok _, Rejected e => Rejected e
       | Ok a, Ok l => Ok (a :: l)
       end)
  end.

(** A synchronous step that may throw. *)
Definition sync {A : Type} (r : Result A) : Async A := ([], r).

Fixpoint mapResult {A B : Type} (f : A -> Result B) (l : list A) : Result (list B) :=
  match l with
  | [] => Ok []
  | x :: rest =>
      match f x with
      | Rejected e => Rejected e
      | Ok b =>
          match mapResult f rest with
          | Rejected e => Rejected e
          | Ok bs => Ok (b :: bs)
          end
      end
  end.

(** ** Helpers of lib/index.js and of Ramda *)

(** Modelled from the spec: [defaultToAnArray] of lib/index.js, which is not
    among the sources.  Callers pass a sequence, which it returns. *)
Definition defaultToAnArray {A : Type} (l : list A) : list A := l.

(** Modelled from the spec: [equalsByKeys] of lib/index.js, which is not
    among the sources: a field-by-field comparator over a list of field
    names, true iff all named fields are equal by value. *)
Definition equalsByKeys {A B : Type} `{JsObject A} `{JsObject B}
    (keys : list string) (objA : A) (objB : B) : bool :=
  forallb (fun k => Value_eqb (prop k objA) (prop k objB)) keys.

(** Modelled from the spec: [checkForDuplicates] of lib/index.js, which is
    not among the sources: it fails when two entries of the array share the
    same values for the listed keys. *)
Fixpoint hasDuplicates {A : Type} `{JsObject A} (keys : list string) (array : list A) : bool :=
  match array with
  | [] => false
  | x :: rest => existsb (equalsByKeys keys x) rest || hasDuplicates keys rest
  end.

Definition checkForDuplicates {A : Type} `{JsObject A}
    (keys : list string) (array : list A) : Result unit :=
  if hasDuplicates keys array then Rejected DuplicatesError else Ok tt.

(** Modelled from the spec: [listAll] of lib/index.js, which is not among the
    sources: it pages through the listing, following the continuation tokens
    until they are exhausted, and concatenates the pages. *)
Fixpoint listAllFrom (api : string) (typeName nextToken : option string) (pages : Pages)
    : Async (list Aws.Resolver) :=
  let call :=
    ListResolvers {| lr_apiId := api; lr_typeName := typeName; lr_nextToken := nextToken |} in
  match pages with
  | LastPage resolvers => ([call], Ok resolvers)
  | NextPage resolvers token rest =>
      let (t, r) := listAllFrom api typeName (Some token) rest in
      (call :: t,
       match r with
       | Ok more => Ok (resolvers ++ more)
       | Rejected e => Rejected e
       end)
  | FailedPage e => ([call], Rejected e)
  end.

Definition listAll (appSync : AppSync) (api : string) (typeName : option string)
    : Async (list Aws.Resolver) :=
  listAllFrom api typeName None (listResolvers appSync api typeName).

(** The files on disk: the text of each existing file. *)
Definition Files : Type := string -> option string.

(** Modelled from the spec: [readIfFile] of lib/index.js, which is not among
    the sources: the text of the file if the value names an existing file,
    the value itself otherwise, nil if the value is absent. *)
Definition readIfFile (files : Files) (data : option string) : option string :=
  match data with
  | None => None
  | Some s =>
      match files s with
      | Some text => Some text
      | None => Some s
      end
  end.

(** JavaScript's [a || b] on a string or [undefined]: the empty string is
    falsy as well. *)
Definition orElse (a : option string) (b : string) : option string :=
  match a with
  | None => Some b
  | Some s => if String.eqb s EmptyString then Some b else Some s
  end.

(** Ramda's [pick] on a declared resolver: the listed keys are kept. *)
Definition keep {A : Type} (k : string) (keys : list string) (v : option A) : option A :=
  if existsb (String.eqb k) keys then v else None.

Definition pick (keys : list string) (r : MappingTemplate) : MappingTemplate :=
  {| dataSource := keep "dataSource" keys (dataSource r);
     type := keep "type" keys (type r);
     field := keep "field" keys (field r);
     request := keep "request" keys (request r);
     response := keep "response" keys (response r);
     kind := keep "kind" keys (kind r);
     pipelineConfig := keep "pipelineConfig" keys (pipelineConfig r);
     requestMappingTemplate := keep "requestMappingTemplate" keys (requestMappingTemplate r);
     responseMappingTemplate := keep "responseMappingTemplate" keys (responseMappingTemplate r);
     mode := keep "mode" keys (mode r) |}.

(** Structural equality of declared resolvers (Ramda's [equals] on them). *)
Definition MappingTemplate_eq_dec (a b : MappingTemplate) : {a = b} + {a <> b}.
Proof. repeat decide equality. Defined.

Definition MappingTemplate_eqb (a b : MappingTemplate) : bool :=
  if MappingTemplate_eq_dec a b then true else false.

(** Ramda's [difference]: the elements of the first list that are not in the
    second, without duplicates, in the order of the first list. *)
Fixpoint differenceFrom (toFilterOut first : list MappingTemplate) : list MappingTemplate :=
  match first with
  | [] => []
  | x :: rest =>
      if existsb (MappingTemplate_eqb x) toFilterOut
      then differenceFrom toFilterOut rest
      else x :: differenceFrom (x :: toFilterOut) rest
  end.

Definition difference (first second : list MappingTemplate) : list MappingTemplate :=
  differenceFrom second first.

(** ** createOrUpdateResolvers *)

Definition quoted (s : string) : string := (dquote ++ s ++ dquote)%string.

(** The two default templates of a Lambda data source, as written in the
    source (lines 49 and 50). *)
Definition lambdaRequestTemplate : string :=
  ("{ " ++ quoted "version" ++ ": " ++ quoted "2017-02-28" ++ ", "
   ++ quoted "operation" ++ ": " ++ quoted "Invoke" ++ ", "
   ++ quoted "payload" ++ ": $util.toJson($context.arguments) })")%string.

Definition lambdaResponseTemplate : string := "$util.toJson($context.result)".

(** Lines 13 to 35: one drained listing per entry of [config.mappingTemplates],
    flattened, each resolver merged with its three aliases. *)
Definition withAliases (resolver : Aws.Resolver) : Deployed.Resolver :=
  {| Deployed.resolver := resolver;
     Deployed.type := Aws.typeName resolver;
     Deployed.field := Aws.fieldName resolver;
     Deployed.dataSource := Aws.dataSourceName resolver |}.

Definition deployedResolvers (appSync : AppSync) (config : Config)
    : Async (list Deployed.Resolver) :=
  lists <- promiseAll
             (map (fun mappingTemplate => listAll appSync (apiId config) (type mappingTemplate))
                  (defaultToAnArray (mappingTemplates config))) ;;
  resolve (map withAliases (concat lists)).

(** [merge(resolver, { requestMappingTemplate, responseMappingTemplate })]. *)
Definition mergeTemplates (r : MappingTemplate) (req resp : option string) : MappingTemplate :=
  {| dataSource := dataSource r; type := type r; field := field r;
     request := request r; response := response r; kind := kind r;
     pipelineConfig := pipelineConfig r;
     requestMappingTemplate := req;
     responseMappingTemplate := resp;
     mode := mode r |}.

(** [merge(resolver, { mode })]. *)
Definition mergeMode (r : MappingTemplate) (m : string) : MappingTemplate :=
  {| dataSource := dataSource r; type := type r; field := field r;
     request := request r; response := response r; kind := kind r;
     pipelineConfig := pipelineConfig r;
     requestMappingTemplate := requestMappingTemplate r;
     responseMappingTemplate := responseMappingTemplate r;
     mode := Some m |}.

(** Lines 38 to 55: the templates of one declared resolver. *)
Definition resolverWithTemplates (appSync : AppSync) (files : Files) (config : Config)
    (resolver : MappingTemplate) : Async MappingTemplate :=
  let requestMappingTemplate := readIfFile files (request resolver) in
  let responseMappingTemplate := readIfFile files (response resolver) in
  if isNil requestMappingTemplate || isNil responseMappingTemplate then
    let req := {| gd_apiId := apiId config; gd_name := dataSource resolver |} in
    dataSource <- send (GetDataSource req) (getDataSource appSync req) ;;
    if equals (ds_type dataSource) (Some "AWS_LAMBDA") then
      resolve (mergeTemplates resolver
                 (orElse requestMappingTemplate lambdaRequestTemplate)
                 (orElse responseMappingTemplate lambdaResponseTemplate))
    else resolve (mergeTemplates resolver requestMappingTemplate responseMappingTemplate)
  else resolve (mergeTemplates resolver requestMappingTemplate responseMappingTemplate).

(** Lines 58 to 73: the mode of one declared resolver. *)
Definition sameTypeAndField (resolver : MappingTemplate) (d : Deployed.Resolver) : bool :=
  equals (Deployed.type d) (type resolver) && equals (Deployed.field d) (field resolver).

Definition comparedKeys : list string :=
  ["dataSource"; "type"; "field"; "responseMappingTemplate"; "requestMappingTemplate"].

Definition resolverToDeploy (deployed : list Deployed.Resolver) (resolver : MappingTemplate)
    : MappingTemplate :=
  let deployedResolver := find (sameTypeAndField resolver) deployed in
  let resolverEquals :=
    match deployedResolver with
    | None => false
    | Some d => equalsByKeys comparedKeys d resolver
    end in
  let mode :=
    if negb resolverEquals
    then (if isNil deployedResolver then "create" else "update")
    else "ignore" in
  mergeMode resolver mode.

(** Lines 77 to 112: the parameters of the remote call, or the error thrown
    while they are built. *)
Definition functionIdOf (config : Config) (pipelineFunctionName : string) : Result string :=
  match find (fun f => equals (name f) (Some pipelineFunctionName)) (configFunctions config) with
  | None => Rejected TypeError
  | Some f =>
      match functionId f with
      | None =>
          Rejected (Thrown ("A function " ++ quoted pipelineFunctionName
            ++ " must exist before referencing them to a Pipeline Resolver." ++ dquote)%string)
      | Some id => Ok id
      end
  end.

Definition pipelineFunctionsOf (config : Config) (resolver : MappingTemplate)
    : Result (option (list string)) :=
  match pipelineConfig resolver with
  | Some {| functions := Some names |} =>
      if equals (kind resolver) (Some "PIPELINE") then
        match mapResult (functionIdOf config) names with
        | Ok ids => Ok (Some ids)
        | Rejected e => Rejected e
        end
      else Ok None
  | _ => Ok None
  end.

Definition pipelineWithDataSource (resolver : MappingTemplate) : string :=
  ("Please either remove " ++ quoted "dataSource" ++ " or " ++ quoted "kind"
   ++ " as 'PIPELINE' from resolver " ++ quoted (show (field resolver))
   ++ ". AWS AppSync might not be reconfigured if you are trying to convert a regular resolver to be a pipeline resolver but not removing "
   ++ quoted "dataSource" ++ ".")%string.

Definition dataSourceMissing (resolver : MappingTemplate) : string :=
  (quoted "dataSource" ++ " must be specified for resolver "
   ++ quoted (show (field resolver)) ++ ".")%string.

Definition resolverParams (config : Config) (resolver : MappingTemplate)
    : Result ResolverParams :=
  match pipelineFunctionsOf config resolver with
  | Rejected e => Rejected e
  | Ok pipelineFunctions =>
      let params pc ds :=
        {| p_apiId := apiId config;
           p_fieldName := field resolver;
           p_requestMappingTemplate := requestMappingTemplate resolver;
           p_responseMappingTemplate := responseMappingTemplate resolver;
           p_typeName := type resolver;
           p_kind := kind resolver;
           p_pipelineConfig := pc;
           p_dataSourceName := ds |} in
      if equals (kind resolver) (Some "PIPELINE") then
        if negb (isNil (dataSource resolver))
        then Rejected (Thrown (pipelineWithDataSource resolver))
        else Ok (params (Some {| functions := pipelineFunctions |}) None)
      else
        if isNil (dataSource resolver)
        then Rejected (Thrown (dataSourceMissing resolver))
        else Ok (params None (dataSource resolver))
  end.

(** Lines 76 to 122: one declared resolver is applied. *)
Definition deployResolver (appSync : AppSync) (config : Config) (resolver : MappingTemplate)
    : Async MappingTemplate :=
  params <- sync (resolverParams config resolver) ;;
  _ <- (if equals (mode resolver) (Some "create")
        then send (CreateResolver params) (settled (createResolver appSync params))
        else if equals (mode resolver) (Some "update")
        then send (UpdateResolver params) (settled (updateResolver appSync params))
        else resolve tt) ;;
  resolve resolver.

Definition createOrUpdateResolvers (appSync : AppSync) (files : Files) (config : Config)
    : Async (list MappingTemplate) :=
  _ <- sync (checkForDuplicates ["dataSource"; "type"; "field"]
               (defaultToAnArray (mappingTemplates config))) ;;
  deployed <- deployedResolvers appSync config ;;
  resolversWithTemplates <-
    promiseAll (map (resolverWithTemplates appSync files config)
                    (defaultToAnArray (mappingTemplates config))) ;;
  let resolversToDeploy := map (resolverToDeploy deployed) resolversWithTemplates in
  promiseAll (map (deployResolver appSync config) resolversToDeploy).

(** ** removeObsoleteResolvers *)

Definition obsoleteResolvers (config : Config) (state : State) : list MappingTemplate :=
  difference (defaultToAnArray (stateMappingTemplates state))
             (map (pick ["type"; "field"]) (defaultToAnArray (mappingTemplates config))).

Definition deleteRequest (config : Config) (resolver : MappingTemplate) : DeleteResolverRequest :=
  {| dr_apiId := apiId config;
     dr_fieldName := field resolver;
     dr_typeName := type resolver |}.

(** Lines 139 to 155: one obsolete resolver is removed. *)
Definition removeResolver (appSync : AppSync) (config : Config) (resolver : MappingTemplate)
    : Async unit :=
  let req := deleteRequest config resolver in
  match deleteResolver appSync req with
  | None => send (DeleteResolver req) (Ok tt)
  | Some error =>
      if negb (equals (errorCode error) (Some "NotFoundException"))
      then send (DeleteResolver req) (Rejected error)
      else send (DeleteResolver req) (Ok tt)
  end.

Definition removeObsoleteResolvers (appSync : AppSync) (config : Config) (state : State)
    : Async unit :=
  _ <- promiseAll (map (removeResolver appSync config) (obsoleteResolvers config state)) ;;
  resolve tt.

(** ** Vocabulary of the statements *)

(** The five compared fields of a deployed and a declared resolver agree. *)
Definition sameCompared (d : Deployed.Resolver) (r : MappingTemplate) : Prop :=
  Deployed.dataSource d = dataSource r
  /\ Deployed.type d = type r
  /\ Deployed.field d = field r
  /\ Aws.requestMappingTemplate (Deployed.resolver d) = requestMappingTemplate r
  /\ Aws.responseMappingTemplate (Deployed.resolver d) = responseMappingTemplate r.


(** The Lambda-invoke template up to its closing brace. *)
Definition lambdaInvoke : string :=
  ("{ " ++ quoted "version" ++ ": " ++ quoted "2017-02-28" ++ ", "
   ++ quoted "operation" ++ ": " ++ quoted "Invoke" ++ ", "
   ++ quoted "payload" ++ ": $util.toJson($context.arguments) }")%string.

(** The request template in the words of the specification. *)
Definition specifiedLambdaRequestTemplate : string :=
  ("{" ++ quoted "version" ++ ": " ++ quoted "2017-02-28" ++ ", "
   ++ quoted "operation" ++ ": " ++ quoted "Invoke" ++ ", "
   ++ quoted "payload" ++ ": $util.toJson($context.arguments)}")%string.

(** A call that starts a listing (the request without continuation token). *)
Definition startsListing (c : Call) : bool :=
  match c with
  | ListResolvers req => isNil (lr_nextToken req)
  | _ => false
  end.

(** The distinct type names of the declared resolvers. *)
Definition option_string_dec (a b : option string) : {a = b} + {a <> b}.
Proof. decide equality. apply string_dec. Defined.

Definition distinctTypeNames (config : Config) : list (option string) :=
  nodup option_string_dec (map type (mappingTemplates config)).

(** The request that starts the listing of a type. *)
Definition listingOf (config : Config) (typeName : option string) : Call :=
  ListResolvers {| lr_apiId := apiId config; lr_typeName := typeName;
                   lr_nextToken := None |}.

(** A call that writes a resolver. *)
Definition isWrite (c : Call) : bool :=
  match c with
  | CreateResolver _ | UpdateResolver _ => true
  | _ => false
  end.

(** All the resolvers of a listing, page after page. *)
Fixpoint allResolvers (pages : Pages) : Result (list Aws.Resolver) :=
  match pages with
  | LastPage resolvers => Ok resolvers
  | NextPage resolvers _ rest =>
      match allResolvers rest with
      | Ok more => Ok (resolvers ++ more)
      | Rejected e => Rejected e
      end
  | FailedPage e => Rejected e
  end.

(** ** A remote service that stores what it is sent

    The deployed resolvers of the API are a list; a listing for a type
    answers with the resolvers of that type, and a write stores a resolver
    with the fields sent, in the place of the deployed resolver of the same
    type and field if there is one. *)

Definition stored (p : ResolverParams) : Aws.Resolver :=
  {| Aws.typeName := p_typeName p;
     Aws.fieldName := p_fieldName p;
     Aws.dataSourceName := p_dataSourceName p;
     Aws.requestMappingTemplate := p_requestMappingTemplate p;
     Aws.responseMappingTemplate := p_responseMappingTemplate p;
     Aws.kind := p_kind p;
     Aws.pipelineConfig := p_pipelineConfig p |}.

Definition sameKey (a b : Aws.Resolver) : bool :=
  equals (Aws.typeName a) (Aws.typeName b) && equals (Aws.fieldName a) (Aws.fieldName b).

Fixpoint upsert (x : Aws.Resolver) (remote : list Aws.Resolver) : list Aws.Resolver :=
  match remote with
  | [] => [x]
  | y :: rest => if sameKey x y then x :: rest else y :: upsert x rest
  end.

Definition applyWrite (remote : list Aws.Resolver) (c : Call) : list Aws.Resolver :=
  match c with
  | CreateResolver p | UpdateResolver p => upsert (stored p) remote
  | _ => remote
  end.

Definition applyWrites (calls : list Call) (remote : list Aws.Resolver) : list Aws.Resolver :=
  fold_left applyWrite calls remote.

Definition clientOf (remote : list Aws.Resolver)
    (dataSources : GetDataSourceRequest -> Result DataSource) : AppSync :=
  {| listResolvers := fun _ typeName =>
       LastPage (filter (fun r => equals (Aws.typeName r) typeName) remote);
     getDataSource := dataSources;
     createResolver := fun _ => None;
     updateResolver := fun _ => None;
     deleteResolver := fun _ => None |}.

(** The deployed resolver of a type and a field. *)
Definition hasKey (typeName fieldName : option string) (r : Aws.Resolver) : bool :=
  equals (Aws.typeName r) typeName && equals (Aws.fieldName r) fieldName.

(** The type and the field of a declared resolver. *)
Definition keyOf (r : MappingTemplate) : option string * option string :=
  (type r, field r).

(** The call the apply stage issues for a resolver, if any. *)
Definition writeOf (config : Config) (r : MappingTemplate) : list Call :=
  match resolverParams config r with
  | Rejected _ => []
  | Ok params =>
      if equals (mode r) (Some "create") then [CreateResolver params]
      else if equals (mode r) (Some "update") then [UpdateResolver params]
      else []
  end.

(** ** Concrete inputs *)

Module Sample.

Definition declared (ds ty f rq rs k : option string) (pc : option PipelineConfig)
    : MappingTemplate :=
  {| dataSource := ds; type := ty; field := f; request := rq; response := rs;
     kind := k; pipelineConfig := pc;
     requestMappingTemplate := None; responseMappingTemplate := None; mode := None |}.

Definition remote (ty f ds rq rs k : option string) (pc : option PipelineConfig)
    : Aws.Resolver :=
  {| Aws.typeName := ty; Aws.fieldName := f; Aws.dataSourceName := ds;
     Aws.requestMappingTemplate := rq; Aws.responseMappingTemplate := rs;
     Aws.kind := k; Aws.pipelineConfig := pc |}.

(** A declared resolver whose templates are its inline texts. *)
Definition templated (r : MappingTemplate) : MappingTemplate :=
  mergeTemplates r (request r) (response r).

Definition noFiles : Files := fun _ => None.

Definition lambda : GetDataSourceRequest -> Result DataSource :=
  fun _ => Ok {| ds_type := Some "AWS_LAMBDA" |}.

Definition dynamo : GetDataSourceRequest -> Result DataSource :=
  fun _ => Ok {| ds_type := Some "AMAZON_DYNAMODB" |}.

Definition config (l : list MappingTemplate) (fs : list FunctionConfig) : Config :=
  {| apiId := "api"; mappingTemplates := l; configFunctions := fs |}.

(** A unit resolver on [DS1] for [Query.getItem]. *)
Definition getItem : MappingTemplate :=
  declared (Some "DS1") (Some "Query") (Some "getItem") (Some "req") (Some "res") None None.

(** The same field declared on another data source. *)
Definition getItemOnDS2 : MappingTemplate :=
  declared (Some "DS2") (Some "Query") (Some "getItem") (Some "req") (Some "res") None None.

Definition listItems : MappingTemplate :=
  declared (Some "DS1") (Some "Query") (Some "listItems") (Some "req") (Some "res") None None.

(** A pipeline resolver that still names a data source. *)
Definition pipelineOnDS1 : MappingTemplate :=
  declared (Some "DS1") (Some "Query") (Some "getItem") (Some "req") (Some "res")
           (Some "PIPELINE") None.

(** A pipeline resolver of one function. *)
Definition pipeline : MappingTemplate :=
  declared None (Some "Query") (Some "getItem") (Some "req") (Some "res")
           (Some "PIPELINE") (Some {| functions := Some ["audit"] |}).

(** A pipeline resolver without functions. *)
Definition emptyPipeline : MappingTemplate :=
  declared None (Some "Query") (Some "getItem") (Some "req") (Some "res")
           (Some "PIPELINE") (Some {| functions := None |}).

(** A resolver on [DS1] that declares no template. *)
Definition bare : MappingTemplate :=
  declared (Some "DS1") (Some "Query") (Some "getItem") None None None None.

(** A unit resolver that names no data source. *)
Definition unitWithoutDataSource : MappingTemplate :=
  declared None (Some "Query") (Some "getItem") (Some "req") (Some "res") None None.

(** The entry a run returns for [getItem] when it creates it. *)
Definition createdGetItem : MappingTemplate :=
  resolverToDeploy [] (templated getItem).

(** The type and the field of [getItem], as an entry of the state. *)
Definition getItemPair : MappingTemplate := pick ["type"; "field"] getItem.

(** An entry of the state that holds a type and a field only. *)
Definition getX : MappingTemplate :=
  declared None (Some "Query") (Some "getX") None None None None.

(** A client whose [deleteResolver] answers with the given error code. *)
Definition failingDelete (code : option string) : AppSync :=
  {| listResolvers := fun _ _ => LastPage [];
     getDataSource := lambda;
     createResolver := fun _ => None;
     updateResolver := fun _ => None;
     deleteResolver := fun _ => Some (ServiceError code) |}.

Definition auditFunction : FunctionConfig :=
  {| name := Some "audit"; functionId := Some "fn-1" |}.

(** [Query.getItem] as deployed on [DS1]. *)
Definition deployedGetItem : Aws.Resolver :=
  remote (Some "Query") (Some "getItem") (Some "DS1") (Some "req") (Some "res")
         (Some "UNIT") None.

(** A deployed resolver of another type and field. *)
Definition deployedOther : Aws.Resolver :=
  remote (Some "Mutation") (Some "putItem") (Some "DS1") (Some "req") (Some "res")
         (Some "UNIT") None.

(** [Query.getItem] deployed with an older request template. *)
Definition staleGetItem : Aws.Resolver :=
  remote (Some "Query") (Some "getItem") (Some "DS1") (Some "old") (Some "res")
         (Some "UNIT") None.

(** [Query.getItem] deployed as a pipeline of another function. *)
Definition deployedPipeline : Aws.Resolver :=
  remote (Some "Query") (Some "getItem") None (Some "req") (Some "res")
         (Some "PIPELINE") (Some {| functions := Some ["fn-0"] |}).

(** A client that lists the resolvers of a type in two pages. *)
Definition paged : AppSync :=
  {| listResolvers := fun _ _ => NextPage [staleGetItem] "page-2" (LastPage [deployedPipeline]);
     getDataSource := lambda;
     createResolver := fun _ => None;
     updateResolver := fun _ => None;
     deleteResolver := fun _ => None |}.

(** Two declared resolvers with distinct keys, and two that share the key
    [Query.getItem] on different data sources. *)
Definition twoFields : Config := config [getItem; listItems] [].

Definition sharedKey : Config := config [getItem; getItemOnDS2] [].

(** A first run against a service that holds [Query.getItem] on [DS1] with
    the declared templates. *)
Definition firstRun (c : Config) : Async (list MappingTemplate) :=
  createOrUpdateResolvers (clientOf [deployedGetItem] lambda) noFiles c.

Definition resolved (run : Async (list MappingTemplate)) : list MappingTemplate :=
  match snd run with
  | Ok l => l
  | Rejected _ => []
  end.

(** The run that follows it, against what the first run left deployed. *)
Definition secondRun (c : Config) : Async (list MappingTemplate) :=
  createOrUpdateResolvers
    (clientOf (applyWrites (fst (firstRun c)) [deployedGetItem]) lambda) noFiles c.

End Sample.

(** ** Vocabulary of the further properties *)

Definition isListResolvers (c : Call) : bool :=
  match c with
  | ListResolvers _ => true
  | _ => false
  end.

Definition isGetDataSource (c : Call) : bool :=
  match c with
  | GetDataSource _ => true
  | _ => false
  end.

Definition isDelete (c : Call) : bool :=
  match c with
  | DeleteResolver _ => true
  | _ => false
  end.

(** A declared resolver lacks a template once its files are read (the test
    of line 42). *)
Definition missingTemplate (files : Files) (r : MappingTemplate) : bool :=
  isNil (readIfFile files (request r)) || isNil (readIfFile files (response r)).

(** The request of line 44 for a declared resolver. *)
Definition dataSourceRequest (config : Config) (r : MappingTemplate) : GetDataSourceRequest :=
  {| gd_apiId := apiId config; gd_name := dataSource r |}.

(** The template stage of a run (lines 37 to 56). *)
Definition templating (appSync : AppSync) (files : Files) (config : Config)
    : Async (list MappingTemplate) :=
  promiseAll (map (resolverWithTemplates appSync files config)
                  (defaultToAnArray (mappingTemplates config))).

(** The first entry of [config.functions] with a name (the [find] of line
    81). *)
Definition functionNamed (config : Config) (n : string) : option FunctionConfig :=
  find (fun f => equals (name f) (Some n)) (configFunctions config).

(** The message of line 85. *)
Definition functionMustExist (n : string) : string :=
  ("A function " ++ quoted n
   ++ " must exist before referencing them to a Pipeline Resolver." ++ dquote)%string.

(** The declared fields of a resolver, which the stages carry along. *)
Definition sameDeclaration (d r : MappingTemplate) : Prop :=
  dataSource r = dataSource d
  /\ type r = type d
  /\ field r = field d
  /\ request r = request d
  /\ response r = response d
  /\ kind r = kind d
  /\ pipelineConfig r = pipelineConfig d.

(** ** Further concrete inputs *)

Module Scenario.

(** A client whose listings fail. *)
Definition listingFails : AppSync :=
  {| listResolvers := fun _ _ => FailedPage (ServiceError (Some "Throttled"));
     getDataSource := Sample.lambda;
     createResolver := fun _ => None;
     updateResolver := fun _ => None;
     deleteResolver := fun _ => None |}.

(** A client that knows no data source. *)
Definition noDataSource : AppSync :=
  {| listResolvers := fun _ _ => LastPage [];
     getDataSource := fun _ => Rejected (ServiceError (Some "NotFoundException"));
     createResolver := fun _ => None;
     updateResolver := fun _ => None;
     deleteResolver := fun _ => None |}.

(** A client that refuses to create resolvers. *)
Definition createFails : AppSync :=
  {| listResolvers := fun _ _ => LastPage [];
     getDataSource := Sample.lambda;
     createResolver := fun _ => Some (ServiceError (Some "BadRequestException"));
     updateResolver := fun _ => None;
     deleteResolver := fun _ => None |}.

(** A resolver that declares an empty request template and no response
    template, and one that declares both, the request template empty. *)
Definition emptyRequest : MappingTemplate :=
  Sample.declared (Some "DS1") (Some "Query") (Some "getItem")
                  (Some EmptyString) None None None.

Definition emptyRequestWithResponse : MappingTemplate :=
  Sample.declared (Some "DS1") (Some "Query") (Some "getItem")
                  (Some EmptyString) (Some "res") None None.

(** A resolver on [DS2] that declares no template. *)
Definition bareOnDS2 : MappingTemplate :=
  Sample.declared (Some "DS2") (Some "Query") (Some "listOthers") None None None None.

(** A resolver whose request template is a file. *)
Definition fromFile : MappingTemplate :=
  Sample.declared (Some "DS1") (Some "Query") (Some "getItem")
                  (Some "req.vtl") (Some "res") None None.

Definition files : Files :=
  fun path => if String.eqb path "req.vtl" then Some "#set($x = 1)" else None.

(** A pipeline of two functions, and the functions of the configuration. *)
Definition twoSteps : MappingTemplate :=
  Sample.declared None (Some "Query") (Some "getItem") (Some "req") (Some "res")
                  (Some "PIPELINE") (Some {| functions := Some ["audit"; "load"] |}).

Definition loadFunction : FunctionConfig :=
  {| name := Some "load"; functionId := Some "fn-2" |}.

(** A function that has no id yet. *)
Definition pendingFunction : FunctionConfig :=
  {| name := Some "load"; functionId := None |}.

(** A unit resolver that carries a [pipelineConfig]. *)
Definition unitWithPipelineConfig : MappingTemplate :=
  Sample.declared (Some "DS1") (Some "Query") (Some "getItem") (Some "req") (Some "res")
                  (Some "UNIT") (Some {| functions := Some ["nowhere"] |}).

(** A configuration with a valid resolver after an invalid one. *)
Definition invalidThenValid : Config :=
  Sample.config [Sample.unitWithoutDataSource; Sample.listItems] [].

End Scenario.

(** * Properties *)

(** ** Equality of values *)

Lemma equals_eq (a b : option string) : equals a b = true <-> a = b.
Proof.
  destruct a as [x|], b as [y|]; simpl; split; intro E;
    try discriminate; try reflexivity.
  - apply String.eqb_eq in E. now subst.
  - injection E as ->. apply String.eqb_refl.
Qed.

Lemma equals_neq (a b : option string) : equals a b = false <-> a <> b.
Proof.
  split.
  - intros E H. apply equals_eq in H. congruence.
  - intro H. destruct (equals a b) eqn:E; [|reflexivity].
    apply equals_eq in E. contradiction.
Qed.

Lemma equals_refl (a : option string) : equals a a = true.
Proof. now apply equals_eq. Qed.

Lemma Value_eqb_ofString (a b : option string) :
  Value_eqb (ofString a) (ofString b) = equals a b.
Proof. destruct a, b; reflexivity. Qed.

(** The comparison of line 65, field by field. *)
Lemma equalsByKeys_compared (d : Deployed.Resolver) (r : MappingTemplate) :
  equalsByKeys comparedKeys d r =
  equals (Deployed.dataSource d) (dataSource r)
  && equals (Deployed.type d) (type r)
  && equals (Deployed.field d) (field r)
  && equals (Aws.responseMappingTemplate (Deployed.resolver d)) (responseMappingTemplate r)
  && equals (Aws.requestMappingTemplate (Deployed.resolver d)) (requestMappingTemplate r).
Proof.
  unfold equalsByKeys, comparedKeys, prop, Deployed_object, MappingTemplate_object.
  cbn. rewrite !Value_eqb_ofString, !andb_true_r, !andb_assoc. reflexivity.
Qed.

Lemma equalsByKeys_sameCompared (d : Deployed.Resolver) (r : MappingTemplate) :
  equalsByKeys comparedKeys d r = true <-> sameCompared d r.
Proof.
  rewrite equalsByKeys_compared, !andb_true_iff, !equals_eq.
  unfold sameCompared. tauto.
Qed.

Lemma find_none_iff {A : Type} (p : A -> bool) (l : list A) :
  find p l = None <-> forall x, In x l -> p x = false.
Proof.
  split.
  - apply find_none.
  - intro H. induction l as [|x l IH]; [reflexivity|]. simpl.
    rewrite (H x (or_introl eq_refl)). apply IH. intros y Hy. apply H. now right.
Qed.

Lemma sameTypeAndField_eq (r : MappingTemplate) (d : Deployed.Resolver) :
  sameTypeAndField r d = true <-> Deployed.type d = type r /\ Deployed.field d = field r.
Proof. unfold sameTypeAndField. rewrite andb_true_iff, !equals_eq. tauto. Qed.

Lemma mode_resolverToDeploy (deployed : list Deployed.Resolver) (r : MappingTemplate) :
  mode (resolverToDeploy deployed r) =
  match find (sameTypeAndField r) deployed with
  | None => Some "create"
  | Some d => if equalsByKeys comparedKeys d r then Some "ignore" else Some "update"
  end.
Proof.
  unfold resolverToDeploy.
  destruct (find (sameTypeAndField r) deployed) as [d|]; [|reflexivity].
  destruct (equalsByKeys comparedKeys d r); reflexivity.
Qed.

Lemma mode_ignore (S : list Deployed.Resolver) (r : MappingTemplate) (d : Deployed.Resolver) :
  find (sameTypeAndField r) S = Some d ->
  sameCompared d r ->
  mode (resolverToDeploy S r) = Some "ignore".
Proof.
  intros Hfind Hsame. rewrite mode_resolverToDeploy, Hfind.
  apply equalsByKeys_sameCompared in Hsame. now rewrite Hsame.
Qed.

Lemma mode_update (S : list Deployed.Resolver) (r : MappingTemplate) (d : Deployed.Resolver) :
  find (sameTypeAndField r) S = Some d ->
  ~ sameCompared d r ->
  mode (resolverToDeploy S r) = Some "update".
Proof.
  intros Hfind Hdiff. rewrite mode_resolverToDeploy, Hfind.
  destruct (equalsByKeys comparedKeys d r) eqn:E; [|reflexivity].
  apply equalsByKeys_sameCompared in E. contradiction.
Qed.

Lemma mode_create (S : list Deployed.Resolver) (r : MappingTemplate) :
  find (sameTypeAndField r) S = None ->
  mode (resolverToDeploy S r) = Some "create".
Proof. intro Hfind. now rewrite mode_resolverToDeploy, Hfind. Qed.

(** ** Classification *)

(** The member of [S] that decides the mode of [D]: the first one with the
    type and field of [D]. *)
Lemma find_first_member (S pre post : list Deployed.Resolver) (d : Deployed.Resolver)
    (D : MappingTemplate) :
  S = pre ++ d :: post ->
  (forall x, In x pre -> ~ (Deployed.type x = type D /\ Deployed.field x = field D)) ->
  Deployed.type d = type D ->
  Deployed.field d = field D ->
  find (sameTypeAndField D) S = Some d.
Proof.
  intros -> Hpre Ht Hf. induction pre as [|x pre IH]; simpl.
  - assert (E : sameTypeAndField D d = true) by now apply sameTypeAndField_eq.
    now rewrite E.
  - destruct (sameTypeAndField D x) eqn:E.
    + apply sameTypeAndField_eq in E. exfalso. apply (Hpre x); [now left|exact E].
    + apply IH. intros y Hy. apply Hpre. now right.
Qed.

Lemma find_only_member (S : list Deployed.Resolver) (d : Deployed.Resolver)
    (D : MappingTemplate) :
  In d S ->
  Deployed.type d = type D ->
  Deployed.field d = field D ->
  (forall d', In d' S -> Deployed.type d' = type D -> Deployed.field d' = field D ->
              d' = d) ->
  find (sameTypeAndField D) S = Some d.
Proof.
  intros Hin Ht Hf Honly.
  destruct (find (sameTypeAndField D) S) as [d'|] eqn:E.
  - apply find_some in E as [Hin' Hkey]. apply sameTypeAndField_eq in Hkey as [Ht' Hf'].
    now rewrite (Honly d' Hin' Ht' Hf').
  - assert (Hkey : sameTypeAndField D d = true) by now apply sameTypeAndField_eq.
    rewrite (find_none _ _ E d Hin) in Hkey. discriminate.
Qed.

(** C1.  The mode of a declared resolver [D] against the fetched deployed
    resolvers [S].  It is [create] when no member of [S] has the type and
    field of [D].  When a member [d] of [S] has them, it is [update] if [d]
    differs from [D] in one of dataSource, type, field,
    requestMappingTemplate, responseMappingTemplate, and [ignore] if the
    five agree; [d] is the first such member of [S] (second part), which is
    the only one when [S] holds one resolver per type and field (third
    part). *)
Theorem mode_classification (S : list Deployed.Resolver) (D : MappingTemplate) :
  ((forall d, In d S -> ~ (Deployed.type d = type D /\ Deployed.field d = field D)) ->
   mode (resolverToDeploy S D) = Some "create")
  /\ (forall pre d post,
      S = pre ++ d :: post ->
      (forall x, In x pre -> ~ (Deployed.type x = type D /\ Deployed.field x = field D)) ->
      Deployed.type d = type D ->
      Deployed.field d = field D ->
      ((Deployed.dataSource d <> dataSource D
        \/ Deployed.type d <> type D
        \/ Deployed.field d <> field D
        \/ Aws.requestMappingTemplate (Deployed.resolver d) <> requestMappingTemplate D
        \/ Aws.responseMappingTemplate (Deployed.resolver d) <> responseMappingTemplate D) ->
       mode (resolverToDeploy S D) = Some "update")
      /\ ((Deployed.dataSource d = dataSource D
           /\ Deployed.type d = type D
           /\ Deployed.field d = field D
           /\ Aws.requestMappingTemplate (Deployed.resolver d) = requestMappingTemplate D
           /\ Aws.responseMappingTemplate (Deployed.resolver d)
              = responseMappingTemplate D) ->
          mode (resolverToDeploy S D) = Some "ignore"))
  /\ (forall d,
      In d S ->
      Deployed.type d = type D ->
      Deployed.field d = field D ->
      (forall d', In d' S -> Deployed.type d' = type D -> Deployed.field d' = field D ->
                  d' = d) ->
      ((Deployed.dataSource d <> dataSource D
        \/ Deployed.type d <> type D
        \/ Deployed.field d <> field D
        \/ Aws.requestMappingTemplate (Deployed.resolver d) <> requestMappingTemplate D
        \/ Aws.responseMappingTemplate (Deployed.resolver d) <> responseMappingTemplate D) ->
       mode (resolverToDeploy S D) = Some "update")
      /\ ((Deployed.dataSource d = dataSource D
           /\ Deployed.type d = type D
           /\ Deployed.field d = field D
           /\ Aws.requestMappingTemplate (Deployed.resolver d) = requestMappingTemplate D
           /\ Aws.responseMappingTemplate (Deployed.resolver d)
              = responseMappingTemplate D) ->
          mode (resolverToDeploy S D) = Some "ignore")).
Proof.
  assert (Hfound : forall d, find (sameTypeAndField D) S = Some d ->
            ((Deployed.dataSource d <> dataSource D
              \/ Deployed.type d <> type D
              \/ Deployed.field d <> field D
              \/ Aws.requestMappingTemplate (Deployed.resolver d) <> requestMappingTemplate D
              \/ Aws.responseMappingTemplate (Deployed.resolver d)
                 <> responseMappingTemplate D) ->
             mode (resolverToDeploy S D) = Some "update")
            /\ ((Deployed.dataSource d = dataSource D
                 /\ Deployed.type d = type D
                 /\ Deployed.field d = field D
                 /\ Aws.requestMappingTemplate (Deployed.resolver d)
                    = requestMappingTemplate D
                 /\ Aws.responseMappingTemplate (Deployed.resolver d)
                    = responseMappingTemplate D) ->
                mode (resolverToDeploy S D) = Some "ignore")).
  { intros d Hfind. split.
    - intro Hdiff. apply (mode_update S D d Hfind). unfold sameCompared. tauto.
    - intro Hsame. now apply (mode_ignore S D d Hfind). }
  split; [|split].
  - intro Hno. apply mode_create, find_none_iff. intros d Hd.
    destruct (sameTypeAndField D d) eqn:E; [|reflexivity].
    apply sameTypeAndField_eq in E. now apply Hno in Hd.
  - intros pre d post HS Hpre Ht Hf.
    apply Hfound. now apply (find_first_member S pre post d D).
  - intros d Hin Ht Hf Honly.
    apply Hfound. now apply find_only_member.
Qed.

Lemma mode_classification_witness :
  mode (resolverToDeploy [withAliases Sample.deployedOther]
          (Sample.templated Sample.getItem)) = Some "create"
  /\ mode (resolverToDeploy
             [withAliases Sample.deployedOther; withAliases Sample.staleGetItem;
              withAliases Sample.deployedGetItem]
             (Sample.templated Sample.getItem)) = Some "update"
  /\ mode (resolverToDeploy
             [withAliases Sample.deployedOther; withAliases Sample.deployedGetItem;
              withAliases Sample.staleGetItem]
             (Sample.templated Sample.getItem)) = Some "ignore"
  /\ mode (resolverToDeploy
             [withAliases Sample.deployedOther; withAliases Sample.deployedGetItem]
             (Sample.templated Sample.getItemOnDS2)) = Some "update"
  /\ mode (resolverToDeploy
             [withAliases Sample.deployedOther; withAliases Sample.deployedGetItem]
             (Sample.templated Sample.getItem)) = Some "ignore".
Proof.
  assert (Hother : forall x, In x [withAliases Sample.deployedOther] ->
            ~ (Deployed.type x = Some "Query" /\ Deployed.field x = Some "getItem")).
  { intros x [<-|[]] [_ H]. discriminate. }
  assert (Honce : forall d',
            In d' [withAliases Sample.deployedOther; withAliases Sample.deployedGetItem] ->
            Deployed.type d' = Some "Query" -> Deployed.field d' = Some "getItem" ->
            d' = withAliases Sample.deployedGetItem).
  { intros d' [<-|[<-|[]]] _ H; [discriminate|reflexivity]. }
  split; [|split; [|split; [|split]]].
  - apply (proj1 (mode_classification [withAliases Sample.deployedOther]
                    (Sample.templated Sample.getItem))).
    exact Hother.
  - destruct (proj1 (proj2 (mode_classification
                              [withAliases Sample.deployedOther;
                               withAliases Sample.staleGetItem;
                               withAliases Sample.deployedGetItem]
                              (Sample.templated Sample.getItem)))
                [withAliases Sample.deployedOther] (withAliases Sample.staleGetItem)
                [withAliases Sample.deployedGetItem] eq_refl Hother eq_refl eq_refl)
      as [Hupdate _].
    apply Hupdate. right; right; right; left. discriminate.
  - destruct (proj1 (proj2 (mode_classification
                              [withAliases Sample.deployedOther;
                               withAliases Sample.deployedGetItem;
                               withAliases Sample.staleGetItem]
                              (Sample.templated Sample.getItem)))
                [withAliases Sample.deployedOther] (withAliases Sample.deployedGetItem)
                [withAliases Sample.staleGetItem] eq_refl Hother eq_refl eq_refl)
      as [_ Hignore].
    apply Hignore. repeat split.
  - destruct (proj2 (proj2 (mode_classification
                              [withAliases Sample.deployedOther;
                               withAliases Sample.deployedGetItem]
                              (Sample.templated Sample.getItemOnDS2)))
                (withAliases Sample.deployedGetItem)
                (or_intror (or_introl eq_refl)) eq_refl eq_refl Honce)
      as [Hupdate _].
    apply Hupdate. left. discriminate.
  - destruct (proj2 (proj2 (mode_classification
                              [withAliases Sample.deployedOther;
                               withAliases Sample.deployedGetItem]
                              (Sample.templated Sample.getItem)))
                (withAliases Sample.deployedGetItem)
                (or_intror (or_introl eq_refl)) eq_refl eq_refl Honce)
      as [_ Hignore].
    apply Hignore. repeat split.
Defined.

(** ** The apply stage *)

Lemma deployResolver_cases (appSync : AppSync) (config : Config) (r : MappingTemplate) :
  deployResolver appSync config r =
  match resolverParams config r with
  | Rejected e => ([], Rejected e)
  | Ok params =>
      if equals (mode r) (Some "create") then
        ([CreateResolver params],
         match createResolver appSync params with
         | None => Ok r
         | Some e => Rejected e
         end)
      else if equals (mode r) (Some "update") then
        ([UpdateResolver params],
         match updateResolver appSync params with
         | None => Ok r
         | Some e => Rejected e
         end)
      else ([], Ok r)
  end.
Proof.
  unfold deployResolver, sync, await, send, settled, resolve.
  destruct (resolverParams config r) as [params|e]; [|reflexivity].
  destruct (equals (mode r) (Some "create")).
  - now destruct (createResolver appSync params).
  - destruct (equals (mode r) (Some "update")); [|reflexivity].
    now destruct (updateResolver appSync params).
Qed.

Lemma deployResolver_ignore (appSync : AppSync) (config : Config) (r : MappingTemplate) :
  mode r = Some "ignore" ->
  deployResolver appSync config r =
  ([], match resolverParams config r with
       | Rejected e => Rejected e
       | Ok _ => Ok r
       end).
Proof.
  intro Hm. rewrite deployResolver_cases, Hm.
  now destruct (resolverParams config r).
Qed.



(** ** Validation in the apply stage *)

Lemma mapResult_rejected {A B : Type} (f : A -> Result B) (l : list A) (x : A) :
  In x l -> isRejected (f x) = true -> isRejected (mapResult f l) = true.
Proof.
  induction l as [|y l IH]; intros Hin Hx; [destruct Hin|].
  simpl. destruct (f y) eqn:Ey; [|reflexivity].
  destruct Hin as [->|Hin].
  - rewrite Ey in Hx. discriminate.
  - specialize (IH Hin Hx). now destruct (mapResult f l).
Qed.

Lemma functionIdOf_unresolved (config : Config) (n : string) :
  (forall f, In f (configFunctions config) -> name f <> Some n) ->
  functionIdOf config n = Rejected TypeError.
Proof.
  intro Hno. unfold functionIdOf.
  destruct (find _ (configFunctions config)) as [f|] eqn:E; [|reflexivity].
  apply find_some in E as [Hin Hname]. apply equals_eq in Hname.
  now apply Hno in Hin.
Qed.

Lemma resolverParams_pipeline_dataSource (config : Config) (r : MappingTemplate) :
  kind r = Some "PIPELINE" -> dataSource r <> None ->
  isRejected (resolverParams config r) = true.
Proof.
  intros Hk Hd. unfold resolverParams.
  destruct (pipelineFunctionsOf config r); [|reflexivity].
  rewrite Hk. simpl. destruct (dataSource r); [reflexivity|contradiction].
Qed.

Lemma resolverParams_unit_without_dataSource (config : Config) (r : MappingTemplate) :
  kind r <> Some "PIPELINE" -> dataSource r = None ->
  isRejected (resolverParams config r) = true.
Proof.
  intros Hk Hd. unfold resolverParams.
  destruct (pipelineFunctionsOf config r); [|reflexivity].
  apply equals_neq in Hk. rewrite Hk, Hd. reflexivity.
Qed.

Lemma resolverParams_unresolved_function
    (config : Config) (r : MappingTemplate) (names : list string) (n : string) :
  kind r = Some "PIPELINE" ->
  pipelineConfig r = Some {| functions := Some names |} ->
  In n names ->
  (forall f, In f (configFunctions config) -> name f <> Some n) ->
  isRejected (resolverParams config r) = true.
Proof.
  intros Hk Hp Hin Hno. unfold resolverParams, pipelineFunctionsOf.
  rewrite Hp, Hk. simpl.
  assert (H : isRejected (mapResult (functionIdOf config) names) = true).
  { apply (mapResult_rejected _ _ n Hin). now rewrite functionIdOf_unresolved. }
  destruct (mapResult (functionIdOf config) names); [discriminate|reflexivity].
Qed.

Lemma deployResolver_rejected (appSync : AppSync) (config : Config) (r : MappingTemplate) :
  isRejected (resolverParams config r) = true ->
  fst (deployResolver appSync config r) = []
  /\ isRejected (snd (deployResolver appSync config r)) = true.
Proof.
  intro H. rewrite deployResolver_cases.
  destruct (resolverParams config r); [discriminate|]. now split.
Qed.

(** C4, as the code has it.  A declared resolver of mode [ignore] issues no
    remote call in the apply stage.  The fatal configuration errors of that
    stage (a pipeline resolver with a dataSource, a unit resolver without
    one, a pipeline function name that [config.functions] does not hold) do
    not look at the mode: they are raised for every resolver that has the
    defect, one of mode [ignore] included. *)
Theorem ignored_resolver_is_still_validated
    (appSync : AppSync) (config : Config) (r : MappingTemplate) :
  (mode r = Some "ignore" -> fst (deployResolver appSync config r) = [])
  /\ (kind r = Some "PIPELINE" -> dataSource r <> None ->
      isRejected (snd (deployResolver appSync config r)) = true)
  /\ (kind r <> Some "PIPELINE" -> dataSource r = None ->
      isRejected (snd (deployResolver appSync config r)) = true)
  /\ (forall names n,
      kind r = Some "PIPELINE" ->
      pipelineConfig r = Some {| functions := Some names |} ->
      In n names ->
      (forall f, In f (configFunctions config) -> name f <> Some n) ->
      isRejected (snd (deployResolver appSync config r)) = true).
Proof.
  repeat split.
  - intro Hm. now rewrite (deployResolver_ignore appSync config r Hm).
  - intros Hk Hd.
    apply deployResolver_rejected, resolverParams_pipeline_dataSource; assumption.
  - intros Hk Hd.
    apply deployResolver_rejected, resolverParams_unit_without_dataSource; assumption.
  - intros names n Hk Hp Hin Hno.
    apply deployResolver_rejected.
    now apply (resolverParams_unresolved_function config r names n).
Qed.

Lemma ignored_resolver_is_still_validated_witness :
  fst (deployResolver (clientOf [Sample.deployedGetItem] Sample.lambda)
         (Sample.config [Sample.pipelineOnDS1] [])
         (resolverToDeploy [withAliases Sample.deployedGetItem]
            (Sample.templated Sample.pipelineOnDS1))) = []
  /\ isRejected
       (snd (deployResolver (clientOf [Sample.deployedGetItem] Sample.lambda)
               (Sample.config [Sample.pipelineOnDS1] [])
               (resolverToDeploy [withAliases Sample.deployedGetItem]
                  (Sample.templated Sample.pipelineOnDS1)))) = true
  /\ isRejected
       (snd (deployResolver (clientOf [Sample.deployedPipeline] Sample.lambda)
               (Sample.config [Sample.unitWithoutDataSource] [])
               (resolverToDeploy [withAliases Sample.deployedPipeline]
                  (Sample.templated Sample.unitWithoutDataSource)))) = true
  /\ isRejected
       (snd (deployResolver (clientOf [Sample.deployedPipeline] Sample.lambda)
               (Sample.config [Sample.pipeline] [])
               (resolverToDeploy [withAliases Sample.deployedPipeline]
                  (Sample.templated Sample.pipeline)))) = true.
Proof.
  split; [|split; [|split]].
  - apply (proj1 (ignored_resolver_is_still_validated _ _ _)). reflexivity.
  - apply (proj1 (proj2 (ignored_resolver_is_still_validated _ _ _)));
      [reflexivity|discriminate].
  - apply (proj1 (proj2 (proj2 (ignored_resolver_is_still_validated _ _ _))));
      [discriminate|reflexivity].
  - apply (proj2 (proj2 (proj2 (ignored_resolver_is_still_validated _ _ _)))
             ["audit"] "audit"); [reflexivity|reflexivity|now left|intros f []].
Defined.

(** C4 as stated fails: [Query.getItem] is deployed on [DS1] with the
    declared templates, the declaration adds [kind: PIPELINE] and keeps
    [dataSource]; the five compared fields agree, the mode is [ignore], and
    the apply stage still throws. *)
Lemma ignored_resolver_raises_configuration_error :
  mode (resolverToDeploy [withAliases Sample.deployedGetItem]
          (Sample.templated Sample.pipelineOnDS1)) = Some "ignore"
  /\ deployResolver (clientOf [Sample.deployedGetItem] Sample.lambda)
       (Sample.config [Sample.pipelineOnDS1] [])
       (resolverToDeploy [withAliases Sample.deployedGetItem]
          (Sample.templated Sample.pipelineOnDS1))
     = ([], Rejected (Thrown (pipelineWithDataSource Sample.pipelineOnDS1)))
  /\ createOrUpdateResolvers (clientOf [Sample.deployedGetItem] Sample.lambda)
       Sample.noFiles (Sample.config [Sample.pipelineOnDS1] [])
     = ([ListResolvers {| lr_apiId := "api"; lr_typeName := Some "Query";
                          lr_nextToken := None |}],
        Rejected (Thrown (pipelineWithDataSource Sample.pipelineOnDS1))).
Proof. repeat split. Qed.

(** ** Asynchronous computations *)

Lemma await_fst_snd {A B : Type} (m : Async A) (k : A -> Async B) :
  await m k =
  match snd m with
  | Ok a => (fst m ++ fst (k a), snd (k a))
  | Rejected e => (fst m, Rejected e)
  end.
Proof.
  destruct m as [t [a|e]]; simpl; [|reflexivity]. now destruct (k a).
Qed.

Lemma await_ok {A B : Type} (m : Async A) (k : A -> Async B) (b : B) :
  snd (await m k) = Ok b -> exists a, snd m = Ok a /\ snd (k a) = Ok b.
Proof.
  rewrite await_fst_snd. destruct (snd m) as [a|e]; simpl; [|discriminate].
  intro H. now exists a.
Qed.

Lemma promiseAll_fst {A : Type} (ms : list (Async A)) :
  fst (promiseAll ms) = concat (map fst ms).
Proof.
  induction ms as [|[t r] ms IH]; [reflexivity|].
  simpl. destruct (promiseAll ms) as [t' rs]. simpl in *. now rewrite IH.
Qed.

Lemma promiseAll_ok {A : Type} (ms : list (Async A)) (l : list A) :
  snd (promiseAll ms) = Ok l <-> Forall2 (fun m a => snd m = Ok a) ms l.
Proof.
  revert l. induction ms as [|[t r] ms IH]; intro l; simpl.
  - split.
    + intro H. injection H as <-. constructor.
    + intro H. now inversion H.
  - destruct (promiseAll ms) as [t' rs]. simpl in *. split.
    + intro H. destruct r as [a|e]; [|discriminate].
      destruct rs as [l'|e]; [|discriminate].
      injection H as <-. constructor; [reflexivity|]. now apply IH.
    + intro H. inversion H as [|m a ms' l' Ha Hl]; subst. simpl in Ha. subst r.
      apply IH in Hl. now rewrite Hl.
Qed.

Lemma promiseAll_rejected {A : Type} (ms : list (Async A)) (m : Async A) :
  In m ms -> isRejected (snd m) = true -> isRejected (snd (promiseAll ms)) = true.
Proof.
  intros Hin Hm. destruct (snd (promiseAll ms)) as [l|e] eqn:E; [|reflexivity].
  apply promiseAll_ok in E. exfalso.
  induction E as [|m' a ms l Ha _ IH]; [destruct Hin|].
  destruct Hin as [->|Hin]; [|now apply IH].
  rewrite Ha in Hm. discriminate.
Qed.

Lemma Forall2_map_l {A B C : Type} (f : A -> B) (P : B -> C -> Prop)
    (l : list A) (l' : list C) :
  Forall2 P (map f l) l' <-> Forall2 (fun a c => P (f a) c) l l'.
Proof.
  revert l'. induction l as [|a l IH]; intro l'; simpl; split; intro H;
    inversion H; subst; constructor; try assumption; now apply IH.
Qed.

Lemma Forall2_In_l {A B : Type} (P : A -> B -> Prop) (l : list A) (l' : list B) (a : A) :
  Forall2 P l l' -> In a l -> exists b, In b l' /\ P a b.
Proof.
  induction 1 as [|x y l l' Hxy _ IH]; intro Hin; [destruct Hin|].
  destruct Hin as [->|Hin].
  - exists y. split; [now left|assumption].
  - destruct (IH Hin) as [b [Hb Pb]]. exists b. split; [now right|assumption].
Qed.

(** ** The stages of a run that resolves *)

Lemma resolverWithTemplates_ok
    (appSync : AppSync) (files : Files) (config : Config) (r r' : MappingTemplate) :
  snd (resolverWithTemplates appSync files config r) = Ok r' ->
  exists req resp, r' = mergeTemplates r req resp.
Proof.
  unfold resolverWithTemplates.
  destruct (isNil (readIfFile files (request r)) || isNil (readIfFile files (response r))).
  - rewrite await_fst_snd. unfold send. cbn [snd fst].
    destruct (getDataSource appSync _) as [ds|e]; [|discriminate].
    destruct (equals (ds_type ds) (Some "AWS_LAMBDA")); cbn [snd resolve];
      intro H; injection H as <-; eauto.
  - cbn [snd resolve]. intro H. injection H as <-. eauto.
Qed.

(** What decides whether the parameters can be built is untouched by the
    template and mode stages. *)
Lemma resolverParams_staged (config : Config) (S : list Deployed.Resolver)
    (r : MappingTemplate) (req resp : option string) :
  isRejected (resolverParams config (resolverToDeploy S (mergeTemplates r req resp)))
  = isRejected (resolverParams config r).
Proof.
  unfold resolverParams.
  change (pipelineFunctionsOf config (resolverToDeploy S (mergeTemplates r req resp)))
    with (pipelineFunctionsOf config r).
  destruct (pipelineFunctionsOf config r); [|reflexivity].
  cbn [kind dataSource resolverToDeploy mergeMode mergeTemplates].
  destruct (equals (kind r) (Some "PIPELINE")), (dataSource r); reflexivity.
Qed.

Lemma createOrUpdateResolvers_stages
    (appSync : AppSync) (files : Files) (config : Config) :
  createOrUpdateResolvers appSync files config =
  if hasDuplicates ["dataSource"; "type"; "field"] (mappingTemplates config)
  then ([], Rejected DuplicatesError)
  else
    let listing := deployedResolvers appSync config in
    match snd listing with
    | Rejected e => (fst listing, Rejected e)
    | Ok deployed =>
        let templating :=
          promiseAll (map (resolverWithTemplates appSync files config)
                          (mappingTemplates config)) in
        match snd templating with
        | Rejected e => (fst listing ++ fst templating, Rejected e)
        | Ok resolversWithTemplates =>
            let applying :=
              promiseAll (map (deployResolver appSync config)
                              (map (resolverToDeploy deployed) resolversWithTemplates)) in
            (fst listing ++ fst templating ++ fst applying, snd applying)
        end
    end.
Proof.
  unfold createOrUpdateResolvers, checkForDuplicates, defaultToAnArray, sync.
  destruct (hasDuplicates _ _); [reflexivity|].
  cbn [await app].
  destruct (deployedResolvers appSync config) as [t1 [deployed|e]]; cbn [await fst snd];
    [|reflexivity].
  destruct (promiseAll (map (resolverWithTemplates appSync files config) _))
    as [t2 [tmpl|e]]; cbn [await fst snd]; [|reflexivity].
  destruct (promiseAll (map (deployResolver appSync config) _)) as [t3 r].
  reflexivity.
Qed.

Lemma createOrUpdateResolvers_rejects_invalid
    (appSync : AppSync) (files : Files) (config : Config) (r : MappingTemplate) :
  In r (mappingTemplates config) ->
  isRejected (resolverParams config r) = true ->
  isRejected (snd (createOrUpdateResolvers appSync files config)) = true.
Proof.
  intros Hin Hr. rewrite createOrUpdateResolvers_stages.
  destruct (hasDuplicates _ _); [reflexivity|]. cbv zeta.
  destruct (snd (deployedResolvers appSync config)) as [deployed|e]; [|reflexivity].
  destruct (snd (promiseAll (map (resolverWithTemplates appSync files config) _)))
    as [tmpl|e] eqn:Et; [|reflexivity].
  cbn [snd].
  apply promiseAll_ok, Forall2_map_l in Et.
  destruct (Forall2_In_l _ _ _ r Et Hin) as [r' [Hr' Hok]].
  apply resolverWithTemplates_ok in Hok as [req [resp ->]].
  apply (promiseAll_rejected _ (deployResolver appSync config
           (resolverToDeploy deployed (mergeTemplates r req resp)))).
  - apply in_map, in_map. exact Hr'.
  - apply deployResolver_rejected. now rewrite resolverParams_staged.
Qed.

(** ** Pipeline resolvers *)

Lemma resolverParams_empty_pipeline (config : Config) (r : MappingTemplate) :
  kind r = Some "PIPELINE" ->
  pipelineConfig r = None \/ pipelineConfig r = Some {| functions := None |} ->
  forall p, resolverParams config r = Ok p ->
            p_pipelineConfig p = Some {| functions := None |}.
Proof.
  intros Hk Hp p. unfold resolverParams, pipelineFunctionsOf.
  rewrite Hk. destruct Hp as [-> | ->]; cbn [equals String.eqb];
    (destruct (negb (isNil (dataSource r))); [discriminate|]);
    intro H; injection H as <-; reflexivity.
Qed.

Lemma resolverParams_empty_pipeline_ok (config : Config) (r : MappingTemplate) :
  kind r = Some "PIPELINE" ->
  pipelineConfig r = None \/ pipelineConfig r = Some {| functions := None |} ->
  dataSource r = None ->
  exists p, resolverParams config r = Ok p.
Proof.
  intros Hk Hp Hd. unfold resolverParams, pipelineFunctionsOf.
  rewrite Hk, Hd. destruct Hp as [-> | ->]; cbn; eauto.
Qed.

(** C7.  A declared PIPELINE resolver [r].  When it has a dataSource, or
    names a pipeline function that [config.functions] does not hold, the
    apply stage rejects it without a call, and the whole synchronization
    fails.  When it declares no [pipelineConfig.functions] and its mode is
    [create] or [update], every request the apply stage sends for it carries
    the empty [pipelineConfig], and one request is sent when it has no
    dataSource.  [r'] is [r] as it reaches the apply stage, with its
    templates and its mode. *)
Theorem pipeline_validation
    (appSync : AppSync) (files : Files) (config : Config) (r : MappingTemplate)
    (S : list Deployed.Resolver) (req resp : option string) :
  kind r = Some "PIPELINE" ->
  let r' := resolverToDeploy S (mergeTemplates r req resp) in
  (mode r' = Some "create" \/ mode r' = Some "update" ->
   (dataSource r <> None ->
    fst (deployResolver appSync config r') = []
    /\ isRejected (snd (deployResolver appSync config r')) = true
    /\ (In r (mappingTemplates config) ->
        isRejected (snd (createOrUpdateResolvers appSync files config)) = true))
   /\ (forall names n,
       pipelineConfig r = Some {| functions := Some names |} ->
       In n names ->
       (forall f, In f (configFunctions config) -> name f <> Some n) ->
       fst (deployResolver appSync config r') = []
       /\ isRejected (snd (deployResolver appSync config r')) = true
       /\ (In r (mappingTemplates config) ->
           isRejected (snd (createOrUpdateResolvers appSync files config)) = true))
   /\ (pipelineConfig r = None \/ pipelineConfig r = Some {| functions := None |} ->
       (forall c, In c (fst (deployResolver appSync config r')) ->
                  exists p, (c = CreateResolver p \/ c = UpdateResolver p)
                            /\ p_pipelineConfig p = Some {| functions := None |})
       /\ (dataSource r = None ->
           exists c, fst (deployResolver appSync config r') = [c]))).
Proof.
  intros Hk r' Hmode.
  assert (Hinvalid : isRejected (resolverParams config r) = true ->
            fst (deployResolver appSync config r') = []
            /\ isRejected (snd (deployResolver appSync config r')) = true
            /\ (In r (mappingTemplates config) ->
                isRejected (snd (createOrUpdateResolvers appSync files config)) = true)).
  { intro Hr.
    destruct (deployResolver_rejected appSync config r') as [Ht Hs].
    { unfold r'. now rewrite resolverParams_staged. }
    repeat split; try assumption.
    intro Hin. now apply (createOrUpdateResolvers_rejects_invalid appSync files config r). }
  split; [|split].
  - intro Hd. now apply Hinvalid, resolverParams_pipeline_dataSource.
  - intros names n Hp Hin Hno.
    now apply Hinvalid, (resolverParams_unresolved_function config r names n).
  - intro Hp.
    assert (Hk' : kind r' = Some "PIPELINE") by exact Hk.
    assert (Hp' : pipelineConfig r' = None
                  \/ pipelineConfig r' = Some {| functions := None |}) by exact Hp.
    pose proof (resolverParams_empty_pipeline config r' Hk' Hp') as Hempty.
    split.
    + intros c. rewrite deployResolver_cases.
      destruct (resolverParams config r') as [p|e]; [|intros []].
      specialize (Hempty p eq_refl).
      destruct (equals (mode r') (Some "create")).
      { intros [<-|[]]. exists p. auto. }
      destruct (equals (mode r') (Some "update")).
      { intros [<-|[]]. exists p. auto. }
      intros [].
    + intro Hd.
      destruct (resolverParams_empty_pipeline_ok config r' Hk' Hp' Hd) as [p Hpar].
      rewrite deployResolver_cases, Hpar.
      destruct Hmode as [-> | ->]; cbn; eauto.
Qed.

Lemma pipeline_validation_witness :
  (fst (deployResolver (clientOf [] Sample.lambda) (Sample.config [Sample.pipelineOnDS1] [])
          (resolverToDeploy [] (Sample.templated Sample.pipelineOnDS1))) = []
   /\ isRejected
        (snd (deployResolver (clientOf [] Sample.lambda)
                (Sample.config [Sample.pipelineOnDS1] [])
                (resolverToDeploy [] (Sample.templated Sample.pipelineOnDS1)))) = true
   /\ isRejected
        (snd (createOrUpdateResolvers (clientOf [] Sample.lambda) Sample.noFiles
                (Sample.config [Sample.pipelineOnDS1] []))) = true)
  /\ (isRejected
        (snd (createOrUpdateResolvers (clientOf [] Sample.lambda) Sample.noFiles
                (Sample.config [Sample.pipeline] []))) = true)
  /\ (exists c,
        fst (deployResolver (clientOf [] Sample.lambda)
               (Sample.config [Sample.emptyPipeline] [])
               (resolverToDeploy [] (Sample.templated Sample.emptyPipeline))) = [c]).
Proof.
  split; [|split].
  - pose proof (pipeline_validation (clientOf [] Sample.lambda) Sample.noFiles
                  (Sample.config [Sample.pipelineOnDS1] []) Sample.pipelineOnDS1
                  [] (Some "req") (Some "res") eq_refl (or_introl eq_refl)) as H.
    destruct H as [H _].
    assert (Hd : dataSource Sample.pipelineOnDS1 <> None) by discriminate.
    destruct (H Hd) as [H1 [H2 H3]].
    split; [exact H1|split; [exact H2|]]. apply H3. now left.
  - pose proof (pipeline_validation (clientOf [] Sample.lambda) Sample.noFiles
                  (Sample.config [Sample.pipeline] []) Sample.pipeline
                  [] (Some "req") (Some "res") eq_refl (or_introl eq_refl)) as H.
    destruct H as [_ [H _]].
    assert (Hno : forall f, In f (configFunctions (Sample.config [Sample.pipeline] [])) ->
                            name f <> Some "audit") by (intros f []).
    destruct (H ["audit"] "audit" eq_refl (or_introl eq_refl) Hno) as [_ [_ H3]].
    apply H3. now left.
  - pose proof (pipeline_validation (clientOf [] Sample.lambda) Sample.noFiles
                  (Sample.config [Sample.emptyPipeline] []) Sample.emptyPipeline
                  [] (Some "req") (Some "res") eq_refl (or_introl eq_refl)) as H.
    destruct H as [_ [_ H]].
    destruct (H (or_intror eq_refl)) as [_ H'].
    apply H'. reflexivity.
Defined.

(** ** The duplicate check *)

Lemma equalsByKeys_triple (a b : MappingTemplate) :
  equalsByKeys ["dataSource"; "type"; "field"] a b = true
  <-> dataSource a = dataSource b /\ type a = type b /\ field a = field b.
Proof.
  unfold equalsByKeys, prop, MappingTemplate_object. cbn.
  rewrite !Value_eqb_ofString, !andb_true_iff, !equals_eq. tauto.
Qed.

Lemma hasDuplicates_later {A : Type} `{JsObject A}
    (keys : list string) (l : list A) (i j : nat) (a b : A) :
  i < j ->
  nth_error l i = Some a ->
  nth_error l j = Some b ->
  equalsByKeys keys a b = true ->
  hasDuplicates keys l = true.
Proof.
  revert i j. induction l as [|x l IH]; intros i j Hij Hi Hj Hab.
  - destruct i; discriminate.
  - simpl. apply orb_true_iff. destruct i as [|i].
    + left. injection Hi as ->. destruct j as [|j]; [lia|]. simpl in Hj.
      apply existsb_exists. exists b. split; [|exact Hab].
      now apply nth_error_In in Hj.
    + right. destruct j as [|j]; [lia|].
      apply (IH i j); [lia|assumption|assumption|assumption].
Qed.

(** C6.  Two entries of [config.mappingTemplates] with the same dataSource,
    type and field make the synchronization fail with the error of the
    duplicate check, and no remote call has been issued. *)
Theorem duplicates_fail_before_any_call
    (appSync : AppSync) (files : Files) (config : Config)
    (i j : nat) (a b : MappingTemplate) :
  i <> j ->
  nth_error (mappingTemplates config) i = Some a ->
  nth_error (mappingTemplates config) j = Some b ->
  dataSource a = dataSource b ->
  type a = type b ->
  field a = field b ->
  createOrUpdateResolvers appSync files config = ([], Rejected DuplicatesError).
Proof.
  intros Hij Hi Hj Hd Ht Hf.
  assert (Hdup : hasDuplicates ["dataSource"; "type"; "field"] (mappingTemplates config)
                 = true).
  { destruct (Nat.lt_total i j) as [Hlt|[Heq|Hgt]]; [|contradiction|].
    - apply (hasDuplicates_later _ _ i j a b Hlt Hi Hj).
      now apply equalsByKeys_triple.
    - apply (hasDuplicates_later _ _ j i b a Hgt Hj Hi).
      now apply equalsByKeys_triple. }
  rewrite createOrUpdateResolvers_stages, Hdup. reflexivity.
Qed.

Lemma duplicates_fail_before_any_call_witness :
  createOrUpdateResolvers (clientOf [] Sample.lambda) Sample.noFiles
    (Sample.config [Sample.getItem; Sample.listItems; Sample.getItem] [])
  = ([], Rejected DuplicatesError).
Proof.
  apply (duplicates_fail_before_any_call (clientOf [] Sample.lambda) Sample.noFiles
           (Sample.config [Sample.getItem; Sample.listItems; Sample.getItem] [])
           0 2 Sample.getItem Sample.getItem);
    [discriminate|reflexivity|reflexivity|reflexivity|reflexivity|reflexivity].
Defined.

(** ** Default templates of a Lambda data source *)

(** X17.  A declared resolver with a missing request or response template
    asks once for its data source.  When the data source is of type
    AWS_LAMBDA, a missing request template is filled with the literal of
    line 49 and a missing response template with exactly
    [$util.toJson($context.result)].  For a data source of another type the
    missing templates stay nil. *)
Theorem lambda_fallback
    (appSync : AppSync) (files : Files) (config : Config)
    (r : MappingTemplate) (ds : DataSource) :
  getDataSource appSync {| gd_apiId := apiId config; gd_name := dataSource r |} = Ok ds ->
  readIfFile files (request r) = None \/ readIfFile files (response r) = None ->
  exists r',
    resolverWithTemplates appSync files config r
    = ([GetDataSource {| gd_apiId := apiId config; gd_name := dataSource r |}], Ok r')
    /\ (ds_type ds = Some "AWS_LAMBDA" ->
        (readIfFile files (request r) = None ->
         requestMappingTemplate r' = Some lambdaRequestTemplate)
        /\ (readIfFile files (response r) = None ->
            responseMappingTemplate r' = Some "$util.toJson($context.result)"))
    /\ (ds_type ds <> Some "AWS_LAMBDA" ->
        (readIfFile files (request r) = None -> requestMappingTemplate r' = None)
        /\ (readIfFile files (response r) = None -> responseMappingTemplate r' = None)).
Proof.
  intros Hds Hmissing. unfold resolverWithTemplates.
  assert (Hnil : isNil (readIfFile files (request r))
                 || isNil (readIfFile files (response r)) = true).
  { apply orb_true_iff. destruct Hmissing as [-> | ->]; auto. }
  rewrite Hnil, await_fst_snd. unfold send. cbn [snd fst]. rewrite Hds.
  destruct (equals (ds_type ds) (Some "AWS_LAMBDA")) eqn:E;
    eexists; (split; [reflexivity|]); cbn [requestMappingTemplate responseMappingTemplate
                                            mergeTemplates]; split.
  - intros _. split; intros ->; reflexivity.
  - intro Hne. apply equals_eq in E. contradiction.
  - intro He. apply equals_neq in E. contradiction.
  - intros _. split; intro H; exact H.
Qed.

Lemma lambda_fallback_witness :
  (exists r',
     resolverWithTemplates (clientOf [] Sample.lambda) Sample.noFiles
       (Sample.config [Sample.bare] []) Sample.bare
     = ([GetDataSource {| gd_apiId := "api"; gd_name := Some "DS1" |}], Ok r')
     /\ requestMappingTemplate r' = Some lambdaRequestTemplate
     /\ responseMappingTemplate r' = Some "$util.toJson($context.result)")
  /\ (exists r',
      resolverWithTemplates (clientOf [] Sample.dynamo) Sample.noFiles
        (Sample.config [Sample.bare] []) Sample.bare
      = ([GetDataSource {| gd_apiId := "api"; gd_name := Some "DS1" |}], Ok r')
      /\ requestMappingTemplate r' = None
      /\ responseMappingTemplate r' = None).
Proof.
  split.
  - destruct (lambda_fallback (clientOf [] Sample.lambda) Sample.noFiles
                (Sample.config [Sample.bare] []) Sample.bare
                {| ds_type := Some "AWS_LAMBDA" |} eq_refl (or_introl eq_refl))
      as [r' [Hr' [Hlambda _]]].
    exists r'. split; [exact Hr'|].
    destruct (Hlambda eq_refl) as [Hreq Hresp].
    split; [exact (Hreq eq_refl)|exact (Hresp eq_refl)].
  - destruct (lambda_fallback (clientOf [] Sample.dynamo) Sample.noFiles
                (Sample.config [Sample.bare] []) Sample.bare
                {| ds_type := Some "AMAZON_DYNAMODB" |} eq_refl (or_introl eq_refl))
      as [r' [Hr' [_ Hother]]].
    exists r'. split; [exact Hr'|].
    assert (Hne : Some "AMAZON_DYNAMODB" <> Some "AWS_LAMBDA") by discriminate.
    destruct (Hother Hne) as [Hreq Hresp].
    split; [exact (Hreq eq_refl)|exact (Hresp eq_refl)].
Defined.

(** C3 on a resolver that declares no template, on a Lambda data source.
    The response template written is the one of the claim.  The request
    template written is the literal of line 49: the Lambda-invoke template
    up to its closing brace, followed by a closing parenthesis that nothing
    opens.  It is not the text of the claim. *)
Theorem lambda_request_template_ends_in_a_stray_parenthesis :
  resolverWithTemplates (clientOf [] Sample.lambda) Sample.noFiles
    (Sample.config [Sample.bare] []) Sample.bare
  = ([GetDataSource {| gd_apiId := "api"; gd_name := Some "DS1" |}],
     Ok (mergeTemplates Sample.bare (Some lambdaRequestTemplate)
           (Some "$util.toJson($context.result)")))
  /\ lambdaRequestTemplate = (lambdaInvoke ++ ")")%string
  /\ lambdaRequestTemplate <> specifiedLambdaRequestTemplate.
Proof. split; [reflexivity|split; [reflexivity|discriminate]]. Qed.

(** ** Fetching the deployed resolvers *)

Lemma listAllFrom_snd (api : string) (typeName nextToken : option string) (pages : Pages) :
  snd (listAllFrom api typeName nextToken pages) = allResolvers pages.
Proof.
  revert nextToken. induction pages as [rs|rs token rest IH|e]; intro nextToken;
    try reflexivity.
  simpl. specialize (IH (Some token)).
  destruct (listAllFrom api typeName (Some token) rest) as [t r]. simpl in *.
  now rewrite IH.
Qed.

Lemma listAllFrom_continues (api : string) (typeName : option string) (token : string)
    (pages : Pages) :
  filter startsListing (fst (listAllFrom api typeName (Some token) pages)) = [].
Proof.
  revert token. induction pages as [rs|rs token' rest IH|e]; intro token;
    try reflexivity.
  simpl. specialize (IH token').
  destruct (listAllFrom api typeName (Some token') rest) as [t r]. simpl in *.
  exact IH.
Qed.

(** Each listing starts with one request without token, the other requests
    follow the continuation tokens. *)
Lemma listAll_starts_once (appSync : AppSync) (config : Config) (typeName : option string) :
  filter startsListing (fst (listAll appSync (apiId config) typeName))
  = [listingOf config typeName].
Proof.
  unfold listAll, listingOf.
  destruct (listResolvers appSync (apiId config) typeName) as [rs|rs token rest|e];
    try reflexivity.
  simpl. pose proof (listAllFrom_continues (apiId config) typeName token rest) as H.
  destruct (listAllFrom (apiId config) typeName (Some token) rest) as [t r].
  simpl in *. now rewrite H.
Qed.

Lemma listAll_snd (appSync : AppSync) (api : string) (typeName : option string) :
  snd (listAll appSync api typeName) = allResolvers (listResolvers appSync api typeName).
Proof. apply listAllFrom_snd. Qed.

Lemma deployedResolvers_fst (appSync : AppSync) (config : Config) :
  fst (deployedResolvers appSync config)
  = concat (map (fun r => fst (listAll appSync (apiId config) (type r)))
                (mappingTemplates config)).
Proof.
  unfold deployedResolvers, defaultToAnArray. rewrite await_fst_snd.
  rewrite promiseAll_fst, map_map.
  destruct (snd (promiseAll _)); cbn [fst resolve]; [now rewrite app_nil_r|reflexivity].
Qed.

Lemma deployedResolvers_snd (appSync : AppSync) (config : Config)
    (deployed : list Deployed.Resolver) :
  snd (deployedResolvers appSync config) = Ok deployed <->
  exists lists,
    Forall2 (fun r l => allResolvers (listResolvers appSync (apiId config) (type r)) = Ok l)
            (mappingTemplates config) lists
    /\ deployed = map withAliases (concat lists).
Proof.
  unfold deployedResolvers, defaultToAnArray. rewrite await_fst_snd. split.
  - destruct (snd (promiseAll _)) as [lists|e] eqn:E; cbn [snd resolve]; [|discriminate].
    intro H. injection H as <-. exists lists. split; [|reflexivity].
    apply promiseAll_ok, Forall2_map_l in E.
    eapply Forall2_impl; [|exact E]. intros r l Hl. cbv beta in Hl.
    now rewrite listAll_snd in Hl.
  - intros [lists [Hl ->]].
    assert (E : snd (promiseAll
                       (map (fun r => listAll appSync (apiId config) (type r))
                            (mappingTemplates config))) = Ok lists).
    { apply promiseAll_ok, Forall2_map_l.
      eapply Forall2_impl; [|exact Hl]. intros r l H. cbv beta.
      now rewrite listAll_snd. }
    now rewrite E.
Qed.

Lemma starts_of_listings (appSync : AppSync) (config : Config) (l : list MappingTemplate) :
  filter startsListing
    (concat (map (fun r => fst (listAll appSync (apiId config) (type r))) l))
  = map (fun r => listingOf config (type r)) l.
Proof.
  induction l as [|r l IH]; [reflexivity|].
  simpl. now rewrite filter_app, listAll_starts_once, IH.
Qed.

(** C5, as the code has it.  The deployed resolvers are fetched with one
    drained listing per entry of [config.mappingTemplates], for the type of
    that entry, in the order of the entries: the requests that start a
    listing are as many as the declared resolvers.  The pages of all the
    listings are flattened into one list, and each resolver exposes its
    typeName, fieldName and dataSourceName as type, field and dataSource. *)
Theorem one_listing_per_declared_resolver (appSync : AppSync) (config : Config) :
  filter startsListing (fst (deployedResolvers appSync config))
  = map (fun r => listingOf config (type r)) (mappingTemplates config)
  /\ length (filter startsListing (fst (deployedResolvers appSync config)))
     = length (mappingTemplates config)
  /\ (forall deployed,
      snd (deployedResolvers appSync config) = Ok deployed <->
      exists lists,
        Forall2 (fun r l =>
                   allResolvers (listResolvers appSync (apiId config) (type r)) = Ok l)
                (mappingTemplates config) lists
        /\ deployed = map withAliases (concat lists))
  /\ (forall r,
      Deployed.type (withAliases r) = Aws.typeName r
      /\ Deployed.field (withAliases r) = Aws.fieldName r
      /\ Deployed.dataSource (withAliases r) = Aws.dataSourceName r
      /\ Deployed.resolver (withAliases r) = r).
Proof.
  assert (H : filter startsListing (fst (deployedResolvers appSync config))
              = map (fun r => listingOf config (type r)) (mappingTemplates config)).
  { rewrite deployedResolvers_fst. apply starts_of_listings. }
  split; [exact H|]. split; [now rewrite H, length_map|].
  split; [apply deployedResolvers_snd|]. intro r. repeat split.
Qed.

Lemma one_listing_per_declared_resolver_witness :
  fst (deployedResolvers Sample.paged (Sample.config [Sample.getItem] []))
  = [ListResolvers {| lr_apiId := "api"; lr_typeName := Some "Query";
                      lr_nextToken := None |};
     ListResolvers {| lr_apiId := "api"; lr_typeName := Some "Query";
                      lr_nextToken := Some "page-2" |}]
  /\ length (filter startsListing
               (fst (deployedResolvers Sample.paged (Sample.config [Sample.getItem] []))))
     = 1
  /\ snd (deployedResolvers Sample.paged (Sample.config [Sample.getItem] []))
     = Ok [withAliases Sample.staleGetItem; withAliases Sample.deployedPipeline].
Proof.
  split; [reflexivity|]. split.
  - apply (proj1 (proj2 (one_listing_per_declared_resolver Sample.paged
                           (Sample.config [Sample.getItem] [])))).
  - apply (proj1 (proj2 (proj2 (one_listing_per_declared_resolver Sample.paged
                                  (Sample.config [Sample.getItem] []))))).
    exists [[Sample.staleGetItem; Sample.deployedPipeline]].
    split; [|reflexivity]. constructor; [reflexivity|constructor].
Defined.

(** C5 as stated fails: two declared resolvers of the one type [Query] are
    fetched with two listings. *)
Lemma listings_are_not_per_distinct_type :
  fst (deployedResolvers (clientOf [Sample.deployedGetItem] Sample.lambda)
         (Sample.config [Sample.getItem; Sample.listItems] []))
  = [ListResolvers {| lr_apiId := "api"; lr_typeName := Some "Query";
                      lr_nextToken := None |};
     ListResolvers {| lr_apiId := "api"; lr_typeName := Some "Query";
                      lr_nextToken := None |}]
  /\ distinctTypeNames (Sample.config [Sample.getItem; Sample.listItems] [])
     = [Some "Query"]
  /\ length (filter startsListing
               (fst (deployedResolvers (clientOf [Sample.deployedGetItem] Sample.lambda)
                       (Sample.config [Sample.getItem; Sample.listItems] []))))
     <> length (distinctTypeNames (Sample.config [Sample.getItem; Sample.listItems] [])).
Proof. split; [reflexivity|split; [reflexivity|discriminate]]. Qed.

(** ** Removing obsolete resolvers *)

Lemma promiseAll_rejected_inv {A : Type} (ms : list (Async A)) (e : Error) :
  snd (promiseAll ms) = Rejected e -> exists m, In m ms /\ snd m = Rejected e.
Proof.
  induction ms as [|[t r] ms IH]; simpl; [discriminate|].
  destruct (promiseAll ms) as [t' rs]. simpl in *.
  destruct r as [a|e'].
  - destruct rs as [l|e']; [discriminate|]. intro H. injection H as ->.
    destruct (IH eq_refl) as [m [Hin Hm]]. exists m. auto.
  - intro H. injection H as ->. exists (t, Rejected e). auto.
Qed.

Lemma removeResolver_cases (appSync : AppSync) (config : Config) (r : MappingTemplate) :
  removeResolver appSync config r =
  ([DeleteResolver (deleteRequest config r)],
   match deleteResolver appSync (deleteRequest config r) with
   | None => Ok tt
   | Some e => if equals (errorCode e) (Some "NotFoundException") then Ok tt else Rejected e
   end).
Proof.
  unfold removeResolver, send.
  destruct (deleteResolver appSync (deleteRequest config r)) as [e|]; [|reflexivity].
  now destruct (equals (errorCode e) (Some "NotFoundException")).
Qed.

Lemma removeObsoleteResolvers_fst (appSync : AppSync) (config : Config) (state : State) :
  fst (removeObsoleteResolvers appSync config state)
  = map (fun r => DeleteResolver (deleteRequest config r)) (obsoleteResolvers config state).
Proof.
  unfold removeObsoleteResolvers. rewrite await_fst_snd.
  assert (H : fst (promiseAll (map (removeResolver appSync config)
                                   (obsoleteResolvers config state)))
              = map (fun r => DeleteResolver (deleteRequest config r))
                    (obsoleteResolvers config state)).
  { rewrite promiseAll_fst, map_map.
    induction (obsoleteResolvers config state) as [|r l IH]; [reflexivity|].
    simpl. now rewrite removeResolver_cases, IH. }
  destruct (snd (promiseAll _)); cbn [fst resolve]; rewrite H;
    [apply app_nil_r|reflexivity].
Qed.

(** C8.  One [deleteResolver] call, with the apiId, the field and the type,
    is issued for every obsolete entry.  When each of these calls succeeds or
    fails with the code [NotFoundException], the removal succeeds; when one of
    them fails with another error, the removal fails with such an error, one
    that a [deleteResolver] call answered. *)
Theorem obsolete_resolvers_are_deleted
    (appSync : AppSync) (config : Config) (state : State) :
  fst (removeObsoleteResolvers appSync config state)
  = map (fun r => DeleteResolver {| dr_apiId := apiId config;
                                    dr_fieldName := field r;
                                    dr_typeName := type r |})
        (obsoleteResolvers config state)
  /\ ((forall r, In r (obsoleteResolvers config state) ->
       deleteResolver appSync (deleteRequest config r) = None
       \/ exists e, deleteResolver appSync (deleteRequest config r) = Some e
                    /\ errorCode e = Some "NotFoundException") ->
      snd (removeObsoleteResolvers appSync config state) = Ok tt)
  /\ (forall r e,
      In r (obsoleteResolvers config state) ->
      deleteResolver appSync (deleteRequest config r) = Some e ->
      errorCode e <> Some "NotFoundException" ->
      exists r' e',
        snd (removeObsoleteResolvers appSync config state) = Rejected e'
        /\ In r' (obsoleteResolvers config state)
        /\ deleteResolver appSync (deleteRequest config r') = Some e'
        /\ errorCode e' <> Some "NotFoundException").
Proof.
  split; [apply removeObsoleteResolvers_fst|]. split.
  - intro Hall. unfold removeObsoleteResolvers. rewrite await_fst_snd.
    assert (E : snd (promiseAll (map (removeResolver appSync config)
                                     (obsoleteResolvers config state)))
                = Ok (map (fun _ => tt) (obsoleteResolvers config state))).
    { apply promiseAll_ok, Forall2_map_l.
      induction (obsoleteResolvers config state) as [|r l IH]; constructor.
      - rewrite removeResolver_cases. cbn [snd].
        destruct (Hall r (or_introl eq_refl)) as [-> | [e [-> He]]]; [reflexivity|].
        now rewrite He.
      - apply IH. intros r' Hr'. apply Hall. now right. }
    now rewrite E.
  - intros r e Hin He Hcode. unfold removeObsoleteResolvers. rewrite await_fst_snd.
    destruct (snd (promiseAll _)) as [l|e'] eqn:E.
    + exfalso. apply promiseAll_ok, Forall2_map_l in E.
      destruct (Forall2_In_l _ _ _ r E Hin) as [u [_ Hu]].
      rewrite removeResolver_cases, He in Hu. cbn [snd] in Hu.
      apply equals_neq in Hcode. rewrite Hcode in Hu. discriminate.
    + apply promiseAll_rejected_inv in E as [m [Hm Hrej]].
      apply in_map_iff in Hm as [r' [<- Hr']].
      rewrite removeResolver_cases in Hrej. cbn [snd] in Hrej.
      destruct (deleteResolver appSync (deleteRequest config r')) as [e''|] eqn:Ed;
        [|discriminate].
      destruct (equals (errorCode e'') (Some "NotFoundException")) eqn:Ec;
        [discriminate|].
      injection Hrej as ->. exists r', e'. repeat split; try assumption.
      now apply equals_neq.
Qed.

Lemma obsolete_resolvers_are_deleted_witness :
  snd (removeObsoleteResolvers (Sample.failingDelete (Some "NotFoundException"))
         (Sample.config [] []) {| stateMappingTemplates := [Sample.getX] |}) = Ok tt
  /\ exists r' e',
      snd (removeObsoleteResolvers (Sample.failingDelete (Some "Throttled"))
             (Sample.config [] []) {| stateMappingTemplates := [Sample.getX] |})
      = Rejected e'
      /\ In r' (obsoleteResolvers (Sample.config [] [])
                  {| stateMappingTemplates := [Sample.getX] |})
      /\ deleteResolver (Sample.failingDelete (Some "Throttled"))
           (deleteRequest (Sample.config [] []) r') = Some e'
      /\ errorCode e' <> Some "NotFoundException".
Proof.
  split.
  - apply (proj1 (proj2 (obsolete_resolvers_are_deleted
                           (Sample.failingDelete (Some "NotFoundException"))
                           (Sample.config [] [])
                           {| stateMappingTemplates := [Sample.getX] |}))).
    intros r _. right. exists (ServiceError (Some "NotFoundException")).
    split; reflexivity.
  - apply (proj2 (proj2 (obsolete_resolvers_are_deleted
                           (Sample.failingDelete (Some "Throttled"))
                           (Sample.config [] [])
                           {| stateMappingTemplates := [Sample.getX] |}))
             Sample.getX (ServiceError (Some "Throttled")));
      [now left|reflexivity|discriminate].
Defined.

(** What [difference] keeps. *)
Lemma MappingTemplate_eqb_eq (a b : MappingTemplate) :
  MappingTemplate_eqb a b = true <-> a = b.
Proof.
  unfold MappingTemplate_eqb. destruct (MappingTemplate_eq_dec a b); split;
    intro H; try reflexivity; try assumption; try discriminate; contradiction.
Qed.

Lemma differenceFrom_In (toFilterOut first : list MappingTemplate) (x : MappingTemplate) :
  In x (differenceFrom toFilterOut first) <-> In x first /\ ~ In x toFilterOut.
Proof.
  revert toFilterOut. induction first as [|a first IH]; intro toFilterOut; simpl.
  - tauto.
  - destruct (existsb (MappingTemplate_eqb a) toFilterOut) eqn:E.
    + apply existsb_exists in E as [b [Hb Hab]]. apply MappingTemplate_eqb_eq in Hab.
      subst b. rewrite IH. split.
      * tauto.
      * intros [[<-|Hx] Hout]; [contradiction|tauto].
    + assert (Ha : ~ In a toFilterOut).
      { intro Hin. assert (existsb (MappingTemplate_eqb a) toFilterOut = true).
        { apply existsb_exists. exists a. split; [exact Hin|].
          now apply MappingTemplate_eqb_eq. }
        congruence. }
      simpl. rewrite IH. simpl. split.
      * intros [<-|[Hx Hout]]; [tauto|]. split; [tauto|]. intro H. apply Hout. now right.
      * intros [[<-|Hx] Hout]; [now left|].
        destruct (MappingTemplate_eq_dec a x) as [->|Hne]; [now left|].
        right. split; [exact Hx|]. intros [H|H]; contradiction.
Qed.

Lemma obsoleteResolvers_In (config : Config) (state : State) (r : MappingTemplate) :
  In r (obsoleteResolvers config state) <->
  In r (stateMappingTemplates state)
  /\ ~ In r (map (pick ["type"; "field"]) (mappingTemplates config)).
Proof. apply differenceFrom_In. Qed.

(** A state entry that holds a type and a field only is kept when the
    configuration declares its pair. *)
Lemma declared_pair_is_not_obsolete (config : Config) (state : State)
    (r d : MappingTemplate) :
  pick ["type"; "field"] r = r ->
  In d (mappingTemplates config) ->
  type d = type r -> field d = field r ->
  ~ In r (obsoleteResolvers config state).
Proof.
  intros Hr Hd Ht Hf Hin. apply obsoleteResolvers_In in Hin as [_ Hno].
  apply Hno. apply in_map_iff. exists d. split; [|exact Hd].
  rewrite <- Hr. unfold pick. cbn. now rewrite Ht, Hf.
Qed.

(** A state entry that holds any other field equals no projected pair: it is
    obsolete whatever the configuration declares. *)
Lemma entry_with_extra_field_is_obsolete (config : Config) (state : State)
    (r : MappingTemplate) :
  In r (stateMappingTemplates state) ->
  pick ["type"; "field"] r <> r ->
  In r (obsoleteResolvers config state).
Proof.
  intros Hin Hextra. apply obsoleteResolvers_In. split; [exact Hin|].
  intro H. apply in_map_iff in H as [d [Hd _]]. apply Hextra.
  rewrite <- Hd. reflexivity.
Qed.

Lemma differenceFrom_NoDup (toFilterOut first : list MappingTemplate) :
  NoDup (differenceFrom toFilterOut first).
Proof.
  revert toFilterOut. induction first as [|a first IH]; intro toFilterOut; simpl.
  - constructor.
  - destruct (existsb (MappingTemplate_eqb a) toFilterOut); [apply IH|].
    constructor; [|apply IH].
    intro H. apply differenceFrom_In in H as [_ H]. apply H. now left.
Qed.

(** Two entries that hold a type and a field only are equal when these
    agree. *)
Lemma pairs_with_same_key (r r' : MappingTemplate) :
  pick ["type"; "field"] r = r ->
  pick ["type"; "field"] r' = r' ->
  type r' = type r -> field r' = field r ->
  r' = r.
Proof.
  intros Hr Hr' Ht Hf. rewrite <- Hr, <- Hr'. unfold pick. cbn. now rewrite Ht, Hf.
Qed.

(** C2, as the code has it.  The obsolete resolvers are the entries of
    [state.mappingTemplates], compared as they are stored, that are
    structurally equal to no entry of [config.mappingTemplates] projected to
    its type and field; they form a set.  An entry of the state that holds a
    type and a field only, and whose pair the configuration declares, is not
    obsolete; when all the entries of the state are such pairs, no
    [deleteResolver] call is issued for it. *)
Theorem obsolete_is_state_minus_projected_config
    (appSync : AppSync) (config : Config) (state : State) :
  (forall r,
   In r (obsoleteResolvers config state) <->
   In r (stateMappingTemplates state)
   /\ ~ In r (map (pick ["type"; "field"]) (mappingTemplates config)))
  /\ NoDup (obsoleteResolvers config state)
  /\ (forall r d,
      pick ["type"; "field"] r = r ->
      In d (mappingTemplates config) ->
      type d = type r -> field d = field r ->
      ~ In r (obsoleteResolvers config state))
  /\ ((forall r, In r (stateMappingTemplates state) -> pick ["type"; "field"] r = r) ->
      forall r d,
      In r (stateMappingTemplates state) ->
      In d (mappingTemplates config) ->
      type d = type r -> field d = field r ->
      ~ In (DeleteResolver {| dr_apiId := apiId config;
                              dr_fieldName := field r;
                              dr_typeName := type r |})
           (fst (removeObsoleteResolvers appSync config state))).
Proof.
  split; [intro r; apply obsoleteResolvers_In|].
  split; [apply differenceFrom_NoDup|].
  split; [intros r d; apply declared_pair_is_not_obsolete|].
  intros Hpairs r d Hr Hd Ht Hf Hcall.
  rewrite removeObsoleteResolvers_fst in Hcall.
  apply in_map_iff in Hcall as [r' [Hreq Hr']].
  injection Hreq as Hf' Ht'.
  assert (Hin' : In r' (stateMappingTemplates state)).
  { now apply obsoleteResolvers_In in Hr' as [Hr' _]. }
  assert (E : r' = r).
  { apply pairs_with_same_key; auto. }
  subst r'.
  now apply (declared_pair_is_not_obsolete config state r d (Hpairs r Hr) Hd Ht Hf).
Qed.

Lemma obsolete_is_state_minus_projected_config_witness :
  ~ In Sample.getItemPair
       (obsoleteResolvers (Sample.config [Sample.getItem] [])
          {| stateMappingTemplates := [Sample.getItemPair; Sample.getX] |})
  /\ ~ In (DeleteResolver {| dr_apiId := "api"; dr_fieldName := Some "getItem";
                             dr_typeName := Some "Query" |})
          (fst (removeObsoleteResolvers (clientOf [Sample.deployedGetItem] Sample.lambda)
                  (Sample.config [Sample.getItem] [])
                  {| stateMappingTemplates := [Sample.getItemPair; Sample.getX] |})).
Proof.
  split.
  - apply (proj1 (proj2 (proj2 (obsolete_is_state_minus_projected_config
                                  (clientOf [Sample.deployedGetItem] Sample.lambda)
                                  (Sample.config [Sample.getItem] [])
                                  {| stateMappingTemplates :=
                                       [Sample.getItemPair; Sample.getX] |})))
             Sample.getItemPair Sample.getItem);
      [reflexivity|now left|reflexivity|reflexivity].
  - apply (proj2 (proj2 (proj2 (obsolete_is_state_minus_projected_config
                                  (clientOf [Sample.deployedGetItem] Sample.lambda)
                                  (Sample.config [Sample.getItem] [])
                                  {| stateMappingTemplates :=
                                       [Sample.getItemPair; Sample.getX] |}))))
      with (r := Sample.getItemPair) (d := Sample.getItem).
    + intros r [<-|[<-|[]]]; reflexivity.
    + now left.
    + now left.
    + reflexivity.
    + reflexivity.
Defined.

(** C2 as stated fails on a state entry that carries extra fields.
    [Query.getItem] is declared; its state entry is the resolver a run
    returned for it, with the fields of the declaration, its templates and
    its mode.  It equals no projected pair of the configuration, counts as
    obsolete, and [deleteResolver] is called for it. *)
Lemma declared_resolver_with_extra_state_fields_is_deleted :
  In (pick ["type"; "field"] Sample.createdGetItem)
     (map (pick ["type"; "field"]) (mappingTemplates (Sample.config [Sample.getItem] [])))
  /\ obsoleteResolvers (Sample.config [Sample.getItem] [])
       {| stateMappingTemplates := [Sample.createdGetItem] |}
     = [Sample.createdGetItem]
  /\ removeObsoleteResolvers (clientOf [Sample.deployedGetItem] Sample.lambda)
       (Sample.config [Sample.getItem] [])
       {| stateMappingTemplates := [Sample.createdGetItem] |}
     = ([DeleteResolver {| dr_apiId := "api"; dr_fieldName := Some "getItem";
                           dr_typeName := Some "Query" |}],
        Ok tt).
Proof. split; [now left|split; reflexivity]. Qed.

(** ** Two runs in a row *)

Lemma deployResolver_fst (appSync : AppSync) (config : Config) (r : MappingTemplate) :
  fst (deployResolver appSync config r) = writeOf config r.
Proof.
  rewrite deployResolver_cases. unfold writeOf.
  destruct (resolverParams config r); [|reflexivity].
  destruct (equals (mode r) (Some "create")); [reflexivity|].
  destruct (equals (mode r) (Some "update")); reflexivity.
Qed.

Lemma find_app {A : Type} (p : A -> bool) (l1 l2 : list A) :
  find p (l1 ++ l2) = match find p l1 with
                      | Some x => Some x
                      | None => find p l2
                      end.
Proof.
  induction l1 as [|x l1 IH]; [reflexivity|]. simpl. now destruct (p x).
Qed.

Lemma find_map {A B : Type} (p : B -> bool) (f : A -> B) (l : list A) :
  find p (map f l) = option_map f (find (fun x => p (f x)) l).
Proof.
  induction l as [|x l IH]; [reflexivity|]. simpl. now destruct (p (f x)).
Qed.

Lemma find_ext {A : Type} (p q : A -> bool) (l : list A) :
  (forall x, p x = q x) -> find p l = find q l.
Proof.
  intro H. induction l as [|x l IH]; [reflexivity|]. simpl. now rewrite H, IH.
Qed.

(** A listing by type keeps the first resolver of a key of that type. *)
Lemma find_hasKey_filter (T T' f : option string) (remote : list Aws.Resolver) :
  find (hasKey T f) (filter (fun r => equals (Aws.typeName r) T') remote)
  = if equals T' T then find (hasKey T f) remote else None.
Proof.
  induction remote as [|x remote IH].
  - simpl. now destruct (equals T' T).
  - simpl. unfold hasKey at 2.
    destruct (equals (Aws.typeName x) T') eqn:E1.
    + simpl. unfold hasKey at 1. rewrite IH.
      apply equals_eq in E1. subst T'.
      destruct (equals (Aws.typeName x) T) eqn:E2; simpl; [|reflexivity].
      now destruct (equals (Aws.fieldName x) f).
    + rewrite IH. destruct (equals T' T) eqn:E2; [|reflexivity].
      apply equals_eq in E2. subst T'. now rewrite E1.
Qed.

Lemma find_hasKey_listings (T f : option string) (remote : list Aws.Resolver)
    (l : list MappingTemplate) :
  find (hasKey T f)
       (concat (map (fun r => filter (fun x => equals (Aws.typeName x) (type r)) remote) l))
  = if existsb (fun r => equals (type r) T) l then find (hasKey T f) remote else None.
Proof.
  induction l as [|r l IH]; [reflexivity|].
  simpl. rewrite find_app, find_hasKey_filter, IH.
  destruct (equals (type r) T); simpl; [|reflexivity].
  destruct (find (hasKey T f) remote); [reflexivity|].
  now destruct (existsb _ l).
Qed.

(** What a run fetches from the storing service. *)
Lemma deployedResolvers_clientOf (remote : list Aws.Resolver)
    (dataSources : GetDataSourceRequest -> Result DataSource) (config : Config) :
  deployedResolvers (clientOf remote dataSources) config
  = (map (fun r => listingOf config (type r)) (mappingTemplates config),
     Ok (map withAliases
           (concat (map (fun r => filter (fun x => equals (Aws.typeName x) (type r)) remote)
                        (mappingTemplates config))))).
Proof.
  unfold deployedResolvers, defaultToAnArray.
  assert (H : promiseAll
                (map (fun r => listAll (clientOf remote dataSources) (apiId config) (type r))
                     (mappingTemplates config))
              = (map (fun r => listingOf config (type r)) (mappingTemplates config),
                 Ok (map (fun r => filter (fun x => equals (Aws.typeName x) (type r)) remote)
                         (mappingTemplates config)))).
  { induction (mappingTemplates config) as [|r l IH]; [reflexivity|].
    cbn [map promiseAll]. rewrite IH. reflexivity. }
  rewrite H. cbn. now rewrite app_nil_r.
Qed.

(** The deployed resolver a declared resolver is compared with. *)
Lemma find_deployed (remote : list Aws.Resolver) (l : list MappingTemplate)
    (r : MappingTemplate) :
  existsb (fun m => equals (type m) (type r)) l = true ->
  find (sameTypeAndField r)
       (map withAliases
          (concat (map (fun m => filter (fun x => equals (Aws.typeName x) (type m)) remote) l)))
  = option_map withAliases (find (hasKey (type r) (field r)) remote).
Proof.
  intro Hin. rewrite find_map.
  rewrite (find_ext _ (hasKey (type r) (field r))) by reflexivity.
  now rewrite find_hasKey_listings, Hin.
Qed.

Lemma hasKey_sameKey (T f : option string) (x y : Aws.Resolver) :
  sameKey x y = true -> hasKey T f y = hasKey T f x.
Proof.
  unfold sameKey, hasKey. intro H.
  apply andb_true_iff in H as [Ht Hf]. apply equals_eq in Ht, Hf. now rewrite Ht, Hf.
Qed.

Lemma hasKey_not_sameKey (T f : option string) (x y : Aws.Resolver) :
  sameKey x y = false -> hasKey T f x = true -> hasKey T f y = false.
Proof.
  unfold sameKey, hasKey. intros H Hx.
  apply andb_true_iff in Hx as [Ht Hf]. apply equals_eq in Ht, Hf. subst T f.
  destruct (equals (Aws.typeName y) (Aws.typeName x)) eqn:E1; [|reflexivity].
  destruct (equals (Aws.fieldName y) (Aws.fieldName x)) eqn:E2; [|reflexivity].
  apply equals_eq in E1, E2. rewrite E1, E2, !equals_refl in H. discriminate.
Qed.

(** The storing service keeps one resolver per written key. *)
Lemma find_upsert (T f : option string) (x : Aws.Resolver) (remote : list Aws.Resolver) :
  find (hasKey T f) (upsert x remote)
  = if hasKey T f x then Some x else find (hasKey T f) remote.
Proof.
  induction remote as [|y remote IH]; simpl.
  - now destruct (hasKey T f x).
  - destruct (sameKey x y) eqn:E; simpl.
    + rewrite (hasKey_sameKey T f x y E). now destruct (hasKey T f x).
    + rewrite IH. destruct (hasKey T f x) eqn:Ex.
      * now rewrite (hasKey_not_sameKey T f x y E Ex).
      * reflexivity.
Qed.

Lemma applyWrites_app (c1 c2 : list Call) (remote : list Aws.Resolver) :
  applyWrites (c1 ++ c2) remote = applyWrites c2 (applyWrites c1 remote).
Proof. apply fold_left_app. Qed.

Lemma applyWrites_reads (calls : list Call) (remote : list Aws.Resolver) :
  (forall c, In c calls -> isWrite c = false) -> applyWrites calls remote = remote.
Proof.
  revert remote. induction calls as [|c calls IH]; intros remote H; [reflexivity|].
  unfold applyWrites in *. simpl.
  assert (Hc : applyWrite remote c = remote).
  { specialize (H c (or_introl eq_refl)). destruct c; try reflexivity; discriminate. }
  rewrite Hc. apply IH. intros c' Hc'. apply H. now right.
Qed.

(** The parameters of a resolver name its type and its field. *)
Lemma resolverParams_key (config : Config) (r : MappingTemplate) (p : ResolverParams) :
  resolverParams config r = Ok p ->
  p_typeName p = type r
  /\ p_fieldName p = field r
  /\ p_dataSourceName p = dataSource r
  /\ p_requestMappingTemplate p = requestMappingTemplate r
  /\ p_responseMappingTemplate p = responseMappingTemplate r.
Proof.
  unfold resolverParams. destruct (pipelineFunctionsOf config r); [|discriminate].
  destruct (equals (kind r) (Some "PIPELINE")).
  - destruct (dataSource r) eqn:Ed; simpl; [discriminate|].
    intro H. injection H as <-. now repeat split.
  - destruct (dataSource r) eqn:Ed; simpl; [|discriminate].
    intro H. injection H as <-. now repeat split.
Qed.

Lemma hasKey_stored (config : Config) (r : MappingTemplate) (p : ResolverParams)
    (T f : option string) :
  resolverParams config r = Ok p ->
  hasKey T f (stored p) = equals (type r) T && equals (field r) f.
Proof.
  intro H. apply resolverParams_key in H as [Ht [Hf _]].
  unfold hasKey, stored. simpl. now rewrite Ht, Hf.
Qed.

(** The writes of a resolver leave the resolvers of other keys in place. *)
Lemma find_applyWrites_writeOf (config : Config) (r : MappingTemplate)
    (T f : option string) (remote : list Aws.Resolver) :
  find (hasKey T f) (applyWrites (writeOf config r) remote)
  = match writeOf config r with
    | [] => find (hasKey T f) remote
    | _ :: _ =>
        if equals (type r) T && equals (field r) f
        then match resolverParams config r with
             | Ok p => Some (stored p)
             | Rejected _ => None
             end
        else find (hasKey T f) remote
    end.
Proof.
  unfold writeOf. destruct (resolverParams config r) as [p|e] eqn:Ep; [|reflexivity].
  destruct (equals (mode r) (Some "create")).
  { unfold applyWrites. simpl. now rewrite find_upsert, (hasKey_stored config r p T f Ep). }
  destruct (equals (mode r) (Some "update")); [|reflexivity].
  unfold applyWrites. simpl. now rewrite find_upsert, (hasKey_stored config r p T f Ep).
Qed.

Lemma keyOf_neq (r r' : MappingTemplate) :
  keyOf r <> keyOf r' -> equals (type r) (type r') && equals (field r) (field r') = false.
Proof.
  intro H. destruct (equals (type r) (type r')) eqn:Et; [|reflexivity].
  destruct (equals (field r) (field r')) eqn:Ef; [|reflexivity].
  apply equals_eq in Et, Ef. exfalso. apply H. unfold keyOf. now rewrite Et, Ef.
Qed.

(** After the writes of resolvers with pairwise distinct keys, the resolver
    deployed for the key of one of them is the one it wrote, or the one that
    was deployed before if it wrote nothing. *)
Lemma find_applyWrites (config : Config) (l : list MappingTemplate) (r : MappingTemplate)
    (remote : list Aws.Resolver) :
  NoDup (map keyOf l) ->
  In r l ->
  find (hasKey (type r) (field r))
       (applyWrites (concat (map (writeOf config) l)) remote)
  = match writeOf config r with
    | [] => find (hasKey (type r) (field r)) remote
    | _ :: _ =>
        match resolverParams config r with
        | Ok p => Some (stored p)
        | Rejected _ => None
        end
    end.
Proof.
  revert remote. induction l as [|a l IH]; intros remote Hnd Hin; [destruct Hin|].
  simpl in Hnd. inversion Hnd as [|k ks Hk Hnd']; subst.
  simpl. rewrite applyWrites_app.
  assert (Hothers : forall m remote',
            ~ In (keyOf m) (map keyOf l) ->
            find (hasKey (type m) (field m))
                 (applyWrites (concat (map (writeOf config) l)) remote')
            = find (hasKey (type m) (field m)) remote').
  { clear. induction l as [|b l IHl]; intros m remote' Hm; [reflexivity|].
    simpl. rewrite applyWrites_app, IHl.
    - rewrite find_applyWrites_writeOf.
      destruct (writeOf config b); [reflexivity|].
      rewrite keyOf_neq; [reflexivity|].
      intro E. apply Hm. left. exact E.
    - intro Hin. apply Hm. now right. }
  destruct Hin as [->|Hin].
  - rewrite Hothers by exact Hk.
    rewrite find_applyWrites_writeOf, !equals_refl. reflexivity.
  - rewrite (IH _ Hnd' Hin).
    destruct (writeOf config r); [|reflexivity].
    rewrite find_applyWrites_writeOf.
    destruct (writeOf config a); [reflexivity|].
    rewrite keyOf_neq; [reflexivity|].
    intro E. apply Hk. rewrite E. now apply in_map.
Qed.

(** The template stage asks the service for data sources only. *)
Lemma resolverWithTemplates_clientOf (remote remote' : list Aws.Resolver)
    (dataSources : GetDataSourceRequest -> Result DataSource)
    (files : Files) (config : Config) (r : MappingTemplate) :
  resolverWithTemplates (clientOf remote dataSources) files config r
  = resolverWithTemplates (clientOf remote' dataSources) files config r.
Proof. reflexivity. Qed.

Lemma resolverWithTemplates_reads (appSync : AppSync) (files : Files) (config : Config)
    (r : MappingTemplate) (c : Call) :
  In c (fst (resolverWithTemplates appSync files config r)) -> isWrite c = false.
Proof.
  unfold resolverWithTemplates.
  destruct (isNil (readIfFile files (request r)) || isNil (readIfFile files (response r)));
    [|intros []].
  rewrite await_fst_snd. unfold send. cbn [fst snd].
  destruct (getDataSource appSync _) as [ds|e]; cbn [fst].
  - destruct (equals (ds_type ds) (Some "AWS_LAMBDA")); cbn [fst resolve];
      intros [<-|[]]; reflexivity.
  - intros [<-|[]]. reflexivity.
Qed.

Lemma resolverParams_resolverToDeploy (config : Config) (S : list Deployed.Resolver)
    (r : MappingTemplate) :
  resolverParams config (resolverToDeploy S r) = resolverParams config r.
Proof. reflexivity. Qed.

(** A write stores the five compared fields of the resolver it is issued
    for. *)
Lemma stored_sameCompared (config : Config) (r : MappingTemplate) (p : ResolverParams) :
  resolverParams config r = Ok p -> sameCompared (withAliases (stored p)) r.
Proof.
  intro H. apply resolverParams_key in H as [Ht [Hf [Hd [Hq Hs]]]].
  unfold sameCompared. simpl. auto.
Qed.

(** The mode of the second run, for a resolver whose parameters the first
    run could build. *)
Lemma second_mode (config : Config) (l : list MappingTemplate)
    (remote remote' : list Aws.Resolver) (r : MappingTemplate) (p : ResolverParams) :
  existsb (fun m => equals (type m) (type r)) l = true ->
  resolverParams config r = Ok p ->
  let deployed remote :=
    map withAliases
      (concat (map (fun m => filter (fun x => equals (Aws.typeName x) (type m)) remote) l)) in
  find (hasKey (type r) (field r)) remote'
  = match writeOf config (resolverToDeploy (deployed remote) r) with
    | [] => find (hasKey (type r) (field r)) remote
    | _ :: _ => Some (stored p)
    end ->
  mode (resolverToDeploy (deployed remote') r) = Some "ignore".
Proof.
  intros Hl Hp deployed Hfind.
  pose proof (find_deployed remote l r Hl) as H1.
  pose proof (find_deployed remote' l r Hl) as H2.
  fold (deployed remote) in H1. fold (deployed remote') in H2.
  unfold writeOf in Hfind.
  rewrite resolverParams_resolverToDeploy, Hp in Hfind.
  rewrite mode_resolverToDeploy in Hfind. rewrite H1 in Hfind.
  rewrite mode_resolverToDeploy, H2.
  destruct (find (hasKey (type r) (field r)) remote) as [x|]; cbn [option_map] in Hfind.
  - destruct (equalsByKeys comparedKeys (withAliases x) r) eqn:E; cbn in Hfind;
      rewrite Hfind; cbn [option_map].
    + now rewrite E.
    + pose proof (stored_sameCompared config r p Hp) as Hs.
      apply equalsByKeys_sameCompared in Hs. now rewrite Hs.
  - cbn in Hfind. rewrite Hfind. cbn [option_map].
    pose proof (stored_sameCompared config r p Hp) as Hs.
    apply equalsByKeys_sameCompared in Hs. now rewrite Hs.
Qed.

Lemma Forall2_templated (appSync : AppSync) (files : Files) (config : Config)
    (l tmpl : list MappingTemplate) :
  snd (promiseAll (map (resolverWithTemplates appSync files config) l)) = Ok tmpl ->
  Forall2 (fun r r' => exists req resp, r' = mergeTemplates r req resp) l tmpl.
Proof.
  intro H. apply promiseAll_ok, Forall2_map_l in H.
  eapply Forall2_impl; [|exact H]. intros r r' Hr. cbv beta in Hr.
  now apply resolverWithTemplates_ok in Hr.
Qed.

Lemma templated_keys (l tmpl : list MappingTemplate) :
  Forall2 (fun r r' => exists req resp, r' = mergeTemplates r req resp) l tmpl ->
  map keyOf tmpl = map keyOf l
  /\ forall r', In r' tmpl -> existsb (fun m => equals (type m) (type r')) l = true.
Proof.
  induction 1 as [|r r' l tmpl [req [resp ->]] _ [IHk IHt]]; [split; [reflexivity|intros ? []]|].
  split.
  - simpl. now rewrite IHk.
  - intros x [<-|Hx]; simpl.
    + now rewrite equals_refl.
    + rewrite (IHt x Hx). apply orb_true_r.
Qed.

Lemma promiseAll_resolved {A : Type} (f : A -> Async A) (l : list A) :
  (forall a, In a l -> f a = ([], Ok a)) -> promiseAll (map f l) = ([], Ok l).
Proof.
  induction l as [|a l IH]; intro H; [reflexivity|].
  cbn [map promiseAll]. rewrite (H a (or_introl eq_refl)), IH; [reflexivity|].
  intros b Hb. apply H. now right.
Qed.

Lemma deployResolver_ok_params (appSync : AppSync) (config : Config)
    (r r' : MappingTemplate) :
  snd (deployResolver appSync config r) = Ok r' ->
  exists p, resolverParams config r = Ok p.
Proof.
  rewrite deployResolver_cases.
  destruct (resolverParams config r) as [p|e]; [eauto|discriminate].
Qed.

(** C9, as the code has it.  The declared resolvers have pairwise distinct
    (type, field) keys; a first run against the storing service succeeds and
    the service holds afterwards the resolvers the run wrote, each with the
    fields sent.  A second run against the same configuration, files and
    data sources then succeeds, gives mode [ignore] to every declared
    resolver, and issues no [createResolver] or [updateResolver] call. *)
Theorem second_run_ignores_everything
    (remote : list Aws.Resolver) (dataSources : GetDataSourceRequest -> Result DataSource)
    (files : Files) (config : Config) (calls : list Call) (resolvers : list MappingTemplate) :
  NoDup (map keyOf (mappingTemplates config)) ->
  createOrUpdateResolvers (clientOf remote dataSources) files config = (calls, Ok resolvers) ->
  exists calls' resolvers',
    createOrUpdateResolvers (clientOf (applyWrites calls remote) dataSources) files config
    = (calls', Ok resolvers')
    /\ length resolvers' = length (mappingTemplates config)
    /\ Forall (fun r => mode r = Some "ignore") resolvers'
    /\ Forall (fun c => isWrite c = false) calls'.
Proof.
  intros Hnd Hrun.
  rewrite createOrUpdateResolvers_stages in Hrun.
  rewrite createOrUpdateResolvers_stages.
  destruct (hasDuplicates _ _); [discriminate|].
  cbv zeta in Hrun. cbv zeta.
  rewrite deployedResolvers_clientOf in Hrun. rewrite deployedResolvers_clientOf.
  cbn [fst snd] in Hrun. cbn [fst snd].
  change (resolverWithTemplates (clientOf (applyWrites calls remote) dataSources) files config)
    with (resolverWithTemplates (clientOf remote dataSources) files config).
  set (deployed := fun R : list Aws.Resolver =>
         map withAliases
           (concat (map (fun r => filter (fun x => equals (Aws.typeName x) (type r)) R)
                        (mappingTemplates config)))).
  change (map withAliases
            (concat (map (fun r => filter (fun x => equals (Aws.typeName x) (type r)) remote)
                         (mappingTemplates config))))
    with (deployed remote) in Hrun.
  change (map withAliases
            (concat (map (fun r => filter (fun x => equals (Aws.typeName x) (type r))
                                          (applyWrites calls remote))
                         (mappingTemplates config))))
    with (deployed (applyWrites calls remote)).
  set (templating := promiseAll (map (resolverWithTemplates (clientOf remote dataSources)
                                        files config) (mappingTemplates config))) in *.
  destruct (snd templating) as [tmpl|e] eqn:Et; [|discriminate].
  pose proof (Forall2_templated _ _ _ _ _ Et) as Htmpl.
  pose proof (Forall2_length Htmpl) as Hlen.
  apply templated_keys in Htmpl as [Hkeys Htypes].
  injection Hrun as Hcalls Hres.
  set (L1 := map (resolverToDeploy (deployed remote)) tmpl) in *.
  assert (HndL1 : NoDup (map keyOf L1)).
  { unfold L1. rewrite map_map.
    rewrite (map_ext _ keyOf) by reflexivity. now rewrite Hkeys. }
  assert (Hparams : forall r', In r' tmpl -> exists p, resolverParams config r' = Ok p).
  { intros r' Hin. apply promiseAll_ok, Forall2_map_l in Hres.
    assert (Hin1 : In (resolverToDeploy (deployed remote) r') L1) by now apply in_map.
    destruct (Forall2_In_l _ _ _ _ Hres Hin1) as [r'' [_ Hok]].
    apply deployResolver_ok_params in Hok. exact Hok. }
  assert (Hwrites : applyWrites calls remote
                    = applyWrites (concat (map (writeOf config) L1)) remote).
  { rewrite <- Hcalls, !applyWrites_app.
    rewrite (applyWrites_reads (map _ (mappingTemplates config))).
    2:{ intros c Hc. apply in_map_iff in Hc as [r [<- _]]. reflexivity. }
    rewrite (applyWrites_reads (fst templating)).
    2:{ unfold templating. rewrite promiseAll_fst, map_map. intros c Hc.
        apply in_concat in Hc as [t [Ht Hc]]. apply in_map_iff in Ht as [r [<- _]].
        now apply resolverWithTemplates_reads in Hc. }
    rewrite promiseAll_fst, map_map.
    now rewrite (map_ext _ (writeOf config)) by (intro; apply deployResolver_fst). }
  assert (Hmode : forall r', In r' tmpl ->
            mode (resolverToDeploy (deployed (applyWrites calls remote)) r') = Some "ignore").
  { intros r' Hin. destruct (Hparams r' Hin) as [p Hp].
    apply (second_mode config (mappingTemplates config) remote _ r' p (Htypes r' Hin) Hp).
    rewrite Hwrites.
    assert (Hin1 : In (resolverToDeploy (deployed remote) r') L1) by now apply in_map.
    pose proof (find_applyWrites config L1 _ remote HndL1 Hin1) as H.
    rewrite resolverParams_resolverToDeploy, Hp in H. exact H. }
  assert (Happly : promiseAll
                     (map (deployResolver (clientOf (applyWrites calls remote) dataSources)
                             config)
                          (map (resolverToDeploy (deployed (applyWrites calls remote))) tmpl))
                   = ([], Ok (map (resolverToDeploy (deployed (applyWrites calls remote)))
                                  tmpl))).
  { apply promiseAll_resolved. intros r2 Hr2.
    apply in_map_iff in Hr2 as [r' [<- Hin]].
    rewrite (deployResolver_ignore _ _ _ (Hmode r' Hin)).
    rewrite resolverParams_resolverToDeploy.
    destruct (Hparams r' Hin) as [p ->]. reflexivity. }
  rewrite Happly. cbn [fst snd].
  eexists. eexists. split; [reflexivity|]. split; [|split].
  - now rewrite length_map.
  - apply Forall_forall. intros r2 Hr2.
    apply in_map_iff in Hr2 as [r' [<- Hin]]. now apply Hmode.
  - apply Forall_forall. intros c Hc. rewrite app_nil_r in Hc.
    apply in_app_or in Hc as [Hc|Hc].
    + apply in_map_iff in Hc as [r [<- _]]. reflexivity.
    + unfold templating in Hc. rewrite promiseAll_fst, map_map in Hc.
      apply in_concat in Hc as [t [Ht Hc]]. apply in_map_iff in Ht as [r [<- _]].
      now apply resolverWithTemplates_reads in Hc.
Qed.

Lemma second_run_ignores_everything_witness :
  exists calls' resolvers',
    Sample.secondRun Sample.twoFields = (calls', Ok resolvers')
    /\ length resolvers' = length (mappingTemplates Sample.twoFields)
    /\ Forall (fun r => mode r = Some "ignore") resolvers'
    /\ Forall (fun c => isWrite c = false) calls'.
Proof.
  apply (second_run_ignores_everything [Sample.deployedGetItem] Sample.lambda Sample.noFiles
           Sample.twoFields (fst (Sample.firstRun Sample.twoFields))
           (Sample.resolved (Sample.firstRun Sample.twoFields))).
  - constructor; [intros [H|[]]; discriminate|].
    constructor; [intros []|constructor].
  - reflexivity.
Defined.

(** Two declared resolvers of one type and field on different data sources
    are never both of mode [ignore], whatever is deployed. *)
Lemma shared_key_never_all_ignored (S : list Deployed.Resolver) (a b : MappingTemplate) :
  keyOf a = keyOf b ->
  dataSource a <> dataSource b ->
  ~ (mode (resolverToDeploy S a) = Some "ignore"
     /\ mode (resolverToDeploy S b) = Some "ignore").
Proof.
  intros Hk Hd [Ha Hb]. rewrite mode_resolverToDeploy in Ha, Hb.
  injection Hk as Ht Hf.
  assert (E : find (sameTypeAndField b) S = find (sameTypeAndField a) S).
  { apply find_ext. intro d. unfold sameTypeAndField. now rewrite Ht, Hf. }
  rewrite E in Hb.
  destruct (find (sameTypeAndField a) S) as [d|]; [|discriminate].
  destruct (equalsByKeys comparedKeys d a) eqn:Ea; [|discriminate].
  destruct (equalsByKeys comparedKeys d b) eqn:Eb; [|discriminate].
  apply equalsByKeys_sameCompared in Ea as [Ea _], Eb as [Eb _]. congruence.
Qed.

(** C9 as stated fails: the configuration declares [Query.getItem] on [DS1]
    and on [DS2], which the duplicate check lets through, and the service
    holds it on [DS1].  The first run ignores the first declaration and
    updates the resolver for the second one; the service then holds exactly
    what was sent.  The second run finds the first declaration different:
    its mode is [update] and [updateResolver] is called. *)
Lemma second_run_updates_a_shared_key :
  hasDuplicates ["dataSource"; "type"; "field"] (mappingTemplates Sample.sharedKey) = false
  /\ isRejected (snd (Sample.firstRun Sample.sharedKey)) = false
  /\ map mode (Sample.resolved (Sample.firstRun Sample.sharedKey))
     = [Some "ignore"; Some "update"]
  /\ filter isWrite (fst (Sample.firstRun Sample.sharedKey))
     = [UpdateResolver
          {| p_apiId := "api"; p_fieldName := Some "getItem";
             p_requestMappingTemplate := Some "req";
             p_responseMappingTemplate := Some "res";
             p_typeName := Some "Query"; p_kind := None;
             p_pipelineConfig := None; p_dataSourceName := Some "DS2" |}]
  /\ applyWrites (fst (Sample.firstRun Sample.sharedKey)) [Sample.deployedGetItem]
     = [Sample.remote (Some "Query") (Some "getItem") (Some "DS2") (Some "req") (Some "res")
          None None]
  /\ isRejected (snd (Sample.secondRun Sample.sharedKey)) = false
  /\ map mode (Sample.resolved (Sample.secondRun Sample.sharedKey))
     = [Some "update"; Some "ignore"]
  /\ filter isWrite (fst (Sample.secondRun Sample.sharedKey))
     = [UpdateResolver
          {| p_apiId := "api"; p_fieldName := Some "getItem";
             p_requestMappingTemplate := Some "req";
             p_responseMappingTemplate := Some "res";
             p_typeName := Some "Query"; p_kind := None;
             p_pipelineConfig := None; p_dataSourceName := Some "DS1" |}].
Proof. repeat split. Qed.

(** * Further properties of the two functions *)

(** ** The calls of a run *)

Lemma listAllFrom_calls (api : string) (typeName nextToken : option string) (pages : Pages) :
  Forall (fun c => isListResolvers c = true) (fst (listAllFrom api typeName nextToken pages)).
Proof.
  revert nextToken. induction pages as [rs|rs token rest IH|e]; intro nextToken; simpl.
  - repeat constructor.
  - specialize (IH (Some token)).
    destruct (listAllFrom api typeName (Some token) rest) as [t r]. simpl in *.
    constructor; [reflexivity|exact IH].
  - repeat constructor.
Qed.

Lemma deployedResolvers_calls (appSync : AppSync) (config : Config) :
  Forall (fun c => isListResolvers c = true) (fst (deployedResolvers appSync config)).
Proof.
  rewrite deployedResolvers_fst. apply Forall_forall. intros c Hc.
  apply in_concat in Hc as [t [Ht Hc]]. apply in_map_iff in Ht as [r [<- _]].
  pose proof (listAllFrom_calls (apiId config) (type r) None
                (listResolvers appSync (apiId config) (type r))) as H.
  rewrite Forall_forall in H. now apply H.
Qed.

Lemma resolverWithTemplates_fst
    (appSync : AppSync) (files : Files) (config : Config) (r : MappingTemplate) :
  fst (resolverWithTemplates appSync files config r)
  = if missingTemplate files r then [GetDataSource (dataSourceRequest config r)] else [].
Proof.
  unfold resolverWithTemplates, missingTemplate, dataSourceRequest.
  destruct (isNil (readIfFile files (request r)) || isNil (readIfFile files (response r)));
    [|reflexivity].
  rewrite await_fst_snd. unfold send. cbn [fst snd].
  destruct (getDataSource appSync _) as [ds|e]; [|reflexivity].
  destruct (equals (ds_type ds) (Some "AWS_LAMBDA")); reflexivity.
Qed.

Lemma templating_fst (appSync : AppSync) (files : Files) (config : Config) :
  fst (templating appSync files config)
  = map (fun r => GetDataSource (dataSourceRequest config r))
        (filter (missingTemplate files) (mappingTemplates config)).
Proof.
  unfold templating, defaultToAnArray. rewrite promiseAll_fst, map_map.
  induction (mappingTemplates config) as [|r l IH]; [reflexivity|].
  simpl. rewrite resolverWithTemplates_fst, IH.
  now destruct (missingTemplate files r).
Qed.

Lemma applying_fst (appSync : AppSync) (config : Config) (l : list MappingTemplate) :
  fst (promiseAll (map (deployResolver appSync config) l)) = concat (map (writeOf config) l).
Proof.
  rewrite promiseAll_fst, map_map.
  now rewrite (map_ext _ (writeOf config)) by (intro; apply deployResolver_fst).
Qed.

(** The calls of a run, stage by stage. *)
Lemma createOrUpdateResolvers_fst (appSync : AppSync) (files : Files) (config : Config) :
  fst (createOrUpdateResolvers appSync files config) =
  if hasDuplicates ["dataSource"; "type"; "field"] (mappingTemplates config) then []
  else
    fst (deployedResolvers appSync config)
    ++ match snd (deployedResolvers appSync config) with
       | Rejected _ => []
       | Ok deployed =>
           fst (templating appSync files config)
           ++ match snd (templating appSync files config) with
              | Rejected _ => []
              | Ok resolversWithTemplates =>
                  concat (map (writeOf config)
                              (map (resolverToDeploy deployed) resolversWithTemplates))
              end
       end.
Proof.
  rewrite createOrUpdateResolvers_stages. unfold templating, defaultToAnArray.
  destruct (hasDuplicates _ _); [reflexivity|]. cbv zeta.
  destruct (snd (deployedResolvers appSync config)) as [deployed|e];
    [|cbn [fst]; now rewrite app_nil_r].
  destruct (snd (promiseAll _)) as [tmpl|e]; cbn [fst];
    [now rewrite applying_fst|now rewrite app_nil_r].
Qed.

Lemma writeOf_calls (config : Config) (r : MappingTemplate) :
  Forall (fun c => isWrite c = true) (writeOf config r).
Proof.
  unfold writeOf. destruct (resolverParams config r); [|constructor].
  destruct (equals (mode r) (Some "create")); [repeat constructor|].
  destruct (equals (mode r) (Some "update")); repeat constructor.
Qed.

Lemma writes_calls (config : Config) (l : list MappingTemplate) :
  Forall (fun c => isWrite c = true) (concat (map (writeOf config) l)).
Proof.
  apply Forall_concat, Forall_map, Forall_forall. intros r _. apply writeOf_calls.
Qed.

Lemma filter_none {A : Type} (p q : A -> bool) (l : list A) :
  Forall (fun x => q x = true) l -> (forall x, q x = true -> p x = false) ->
  filter p l = [].
Proof.
  intros Hl Hpq. induction Hl as [|x l Hx _ IH]; [reflexivity|].
  simpl. now rewrite (Hpq x Hx).
Qed.

Lemma filter_all {A : Type} (p : A -> bool) (l : list A) :
  Forall (fun x => p x = true) l -> filter p l = l.
Proof.
  induction 1 as [|x l Hx _ IH]; [reflexivity|]. simpl. now rewrite Hx, IH.
Qed.

Lemma templating_calls (appSync : AppSync) (files : Files) (config : Config) :
  Forall (fun c => isGetDataSource c = true) (fst (templating appSync files config)).
Proof.
  rewrite templating_fst. apply Forall_map, Forall_forall. reflexivity.
Qed.

(** ** The order of the stages *)

(** X1.  Whatever the client answers, the calls of a synchronization are
    listings first, then data source lookups, then resolver writes: no
    resolver is written before every listing and every lookup has been
    issued, and no resolver is ever deleted. *)
Theorem stages_run_in_order (appSync : AppSync) (files : Files) (config : Config) :
  exists listings lookups writes,
    fst (createOrUpdateResolvers appSync files config) = listings ++ lookups ++ writes
    /\ Forall (fun c => isListResolvers c = true) listings
    /\ Forall (fun c => isGetDataSource c = true) lookups
    /\ Forall (fun c => isWrite c = true) writes
    /\ Forall (fun c => isDelete c = false) (fst (createOrUpdateResolvers appSync files config)).
Proof.
  assert (H : exists listings lookups writes,
             fst (createOrUpdateResolvers appSync files config) = listings ++ lookups ++ writes
             /\ Forall (fun c => isListResolvers c = true) listings
             /\ Forall (fun c => isGetDataSource c = true) lookups
             /\ Forall (fun c => isWrite c = true) writes).
  { rewrite createOrUpdateResolvers_fst.
    destruct (hasDuplicates _ _).
    { exists [], [], []. repeat split; constructor. }
    exists (fst (deployedResolvers appSync config)).
    destruct (snd (deployedResolvers appSync config)) as [deployed|e].
    - exists (fst (templating appSync files config)).
      destruct (snd (templating appSync files config)) as [tmpl|e].
      + eexists. split; [reflexivity|].
        split; [apply deployedResolvers_calls|].
        split; [apply templating_calls|apply writes_calls].
      + exists []. split; [reflexivity|].
        split; [apply deployedResolvers_calls|].
        split; [apply templating_calls|constructor].
    - exists [], []. split; [reflexivity|].
      split; [apply deployedResolvers_calls|]. split; constructor. }
  destruct H as [listings [lookups [writes [E [Hl [Hg Hw]]]]]].
  exists listings, lookups, writes. repeat split; try assumption.
  rewrite E. apply Forall_app. split; [|apply Forall_app; split].
  - eapply Forall_impl; [|exact Hl]. intros c Hc. now destruct c.
  - eapply Forall_impl; [|exact Hg]. intros c Hc. now destruct c.
  - eapply Forall_impl; [|exact Hw]. intros c Hc. now destruct c.
Qed.

Lemma lookups_of_a_run (appSync : AppSync) (files : Files) (config : Config) :
  hasDuplicates ["dataSource"; "type"; "field"] (mappingTemplates config) = false ->
  isRejected (snd (deployedResolvers appSync config)) = false ->
  filter isGetDataSource (fst (createOrUpdateResolvers appSync files config))
  = map (fun r => GetDataSource (dataSourceRequest config r))
        (filter (missingTemplate files) (mappingTemplates config)).
Proof.
  intros Hdup Hlist. rewrite createOrUpdateResolvers_fst, Hdup.
  destruct (snd (deployedResolvers appSync config)) as [deployed|e]; [|discriminate].
  rewrite !filter_app.
  rewrite (filter_none isGetDataSource isListResolvers);
    [|apply deployedResolvers_calls|now intros []].
  rewrite (filter_all isGetDataSource (fst (templating appSync files config)))
    by apply templating_calls.
  assert (Hw : filter isGetDataSource
                 match snd (templating appSync files config) with
                 | Ok tmpl => concat (map (writeOf config) (map (resolverToDeploy deployed) tmpl))
                 | Rejected _ => []
                 end = []).
  { destruct (snd (templating appSync files config)); [|reflexivity].
    apply (filter_none isGetDataSource isWrite); [apply writes_calls|now intros []]. }
  rewrite Hw, app_nil_r. apply templating_fst.
Qed.

(** X2.  When the duplicate check passes and the listings succeed, the data
    sources looked up are those of the declared resolvers that lack a
    request or a response template once their files are read: one lookup
    for each of them, under the resolver's dataSource, and none for a
    resolver with both templates.  The lookups of different resolvers run
    side by side, so they are counted here, not ordered. *)
Theorem data_sources_are_asked_for_missing_templates
    (appSync : AppSync) (files : Files) (config : Config) :
  hasDuplicates ["dataSource"; "type"; "field"] (mappingTemplates config) = false ->
  isRejected (snd (deployedResolvers appSync config)) = false ->
  Permutation
    (filter isGetDataSource (fst (createOrUpdateResolvers appSync files config)))
    (map (fun r => GetDataSource {| gd_apiId := apiId config; gd_name := dataSource r |})
         (filter (fun r => isNil (readIfFile files (request r))
                           || isNil (readIfFile files (response r)))
                 (mappingTemplates config))).
Proof.
  intros Hdup Hlist. rewrite (lookups_of_a_run appSync files config Hdup Hlist).
  apply Permutation_refl.
Qed.

Lemma data_sources_are_asked_for_missing_templates_witness :
  Permutation
    (filter isGetDataSource
       (fst (createOrUpdateResolvers (clientOf [] Sample.lambda) Sample.noFiles
               (Sample.config [Sample.listItems; Sample.bare; Scenario.bareOnDS2] []))))
    [GetDataSource {| gd_apiId := "api"; gd_name := Some "DS1" |};
     GetDataSource {| gd_apiId := "api"; gd_name := Some "DS2" |}].
Proof.
  apply (data_sources_are_asked_for_missing_templates (clientOf [] Sample.lambda)
           Sample.noFiles
           (Sample.config [Sample.listItems; Sample.bare; Scenario.bareOnDS2] []));
    reflexivity.
Defined.

Lemma deployedResolvers_rejected (appSync : AppSync) (config : Config)
    (r : MappingTemplate) (e : Error) :
  In r (mappingTemplates config) ->
  allResolvers (listResolvers appSync (apiId config) (type r)) = Rejected e ->
  isRejected (snd (deployedResolvers appSync config)) = true.
Proof.
  intros Hin Hr. unfold deployedResolvers, defaultToAnArray. rewrite await_fst_snd.
  assert (H : isRejected (snd (promiseAll
                (map (fun m => listAll appSync (apiId config) (type m))
                     (mappingTemplates config)))) = true).
  { apply (promiseAll_rejected _ (listAll appSync (apiId config) (type r))).
    - apply in_map_iff. now exists r.
    - now rewrite listAll_snd, Hr. }
  now destruct (snd (promiseAll _)).
Qed.

(** X3.  When the listing for the type of one declared resolver fails, the
    synchronization fails, and all it has issued are listing requests: no
    data source is looked up and no resolver is written. *)
Theorem failed_listing_stops_the_run
    (appSync : AppSync) (files : Files) (config : Config) (r : MappingTemplate) (e : Error) :
  In r (mappingTemplates config) ->
  allResolvers (listResolvers appSync (apiId config) (type r)) = Rejected e ->
  isRejected (snd (createOrUpdateResolvers appSync files config)) = true
  /\ Forall (fun c => isListResolvers c = true)
            (fst (createOrUpdateResolvers appSync files config)).
Proof.
  intros Hin Hr.
  pose proof (deployedResolvers_rejected appSync config r e Hin Hr) as Hrej.
  split.
  - rewrite createOrUpdateResolvers_stages.
    destruct (hasDuplicates _ _); [reflexivity|]. cbv zeta.
    now destruct (snd (deployedResolvers appSync config)).
  - rewrite createOrUpdateResolvers_fst.
    destruct (hasDuplicates _ _); [constructor|].
    destruct (snd (deployedResolvers appSync config)); [discriminate|].
    rewrite app_nil_r. apply deployedResolvers_calls.
Qed.

Lemma failed_listing_stops_the_run_witness :
  isRejected (snd (createOrUpdateResolvers Scenario.listingFails Sample.noFiles
                     (Sample.config [Sample.bare] []))) = true
  /\ Forall (fun c => isListResolvers c = true)
            (fst (createOrUpdateResolvers Scenario.listingFails Sample.noFiles
                    (Sample.config [Sample.bare] []))).
Proof.
  apply (failed_listing_stops_the_run Scenario.listingFails Sample.noFiles
           (Sample.config [Sample.bare] []) Sample.bare
           (ServiceError (Some "Throttled"))); [now left|reflexivity].
Defined.

(** X4.  When the data source of a declared resolver that lacks a template
    cannot be fetched, the synchronization fails and no resolver has been
    created or updated. *)
Theorem failed_lookup_stops_before_writes
    (appSync : AppSync) (files : Files) (config : Config) (r : MappingTemplate) (e : Error) :
  In r (mappingTemplates config) ->
  readIfFile files (request r) = None \/ readIfFile files (response r) = None ->
  getDataSource appSync {| gd_apiId := apiId config; gd_name := dataSource r |}
  = Rejected e ->
  isRejected (snd (createOrUpdateResolvers appSync files config)) = true
  /\ Forall (fun c => isWrite c = false)
            (fst (createOrUpdateResolvers appSync files config)).
Proof.
  intros Hin Hmissing Hds.
  assert (Hrej : isRejected (snd (templating appSync files config)) = true).
  { apply (promiseAll_rejected _ (resolverWithTemplates appSync files config r)).
    - apply in_map_iff. now exists r.
    - unfold resolverWithTemplates.
      assert (Hnil : isNil (readIfFile files (request r))
                     || isNil (readIfFile files (response r)) = true).
      { apply orb_true_iff. destruct Hmissing as [-> | ->]; auto. }
      rewrite Hnil, await_fst_snd. unfold send. cbn [snd fst]. now rewrite Hds. }
  split.
  - rewrite createOrUpdateResolvers_stages.
    destruct (hasDuplicates _ _); [reflexivity|]. cbv zeta.
    destruct (snd (deployedResolvers appSync config)); [|reflexivity].
    change (promiseAll (map (resolverWithTemplates appSync files config)
                            (mappingTemplates config)))
      with (templating appSync files config).
    now destruct (snd (templating appSync files config)).
  - rewrite createOrUpdateResolvers_fst.
    destruct (hasDuplicates _ _); [constructor|].
    apply Forall_app. split.
    + eapply Forall_impl; [|apply deployedResolvers_calls]. intros c Hc. now destruct c.
    + destruct (snd (deployedResolvers appSync config)); [|constructor].
      destruct (snd (templating appSync files config)); [discriminate|].
      rewrite app_nil_r.
      eapply Forall_impl; [|apply templating_calls]. intros c Hc. now destruct c.
Qed.

Lemma failed_lookup_stops_before_writes_witness :
  isRejected (snd (createOrUpdateResolvers Scenario.noDataSource Sample.noFiles
                     (Sample.config [Sample.listItems; Sample.bare] []))) = true
  /\ Forall (fun c => isWrite c = false)
            (fst (createOrUpdateResolvers Scenario.noDataSource Sample.noFiles
                    (Sample.config [Sample.listItems; Sample.bare] []))).
Proof.
  apply (failed_lookup_stops_before_writes Scenario.noDataSource Sample.noFiles
           (Sample.config [Sample.listItems; Sample.bare] []) Sample.bare
           (ServiceError (Some "NotFoundException")));
    [right; now left|now left|reflexivity].
Defined.

(** ** The writes of a run *)

Lemma In_writeOf_create (config : Config) (r : MappingTemplate) (p : ResolverParams) :
  In (CreateResolver p) (writeOf config r)
  <-> mode r = Some "create" /\ resolverParams config r = Ok p.
Proof.
  unfold writeOf. destruct (resolverParams config r) as [q|e].
  - destruct (equals (mode r) (Some "create")) eqn:Ec.
    + apply equals_eq in Ec. split.
      * intros [H|[]]. injection H as ->. now split.
      * intros [_ H]. injection H as ->. now left.
    + apply equals_neq in Ec. split.
      * intro H. exfalso.
        destruct (equals (mode r) (Some "update")); [|destruct H].
        destruct H as [H|[]]. discriminate.
      * intros [H _]. contradiction.
  - split; [intros []|intros [_ H]; discriminate].
Qed.

Lemma In_writeOf_update (config : Config) (r : MappingTemplate) (p : ResolverParams) :
  In (UpdateResolver p) (writeOf config r)
  <-> mode r = Some "update" /\ resolverParams config r = Ok p.
Proof.
  unfold writeOf. destruct (resolverParams config r) as [q|e].
  - destruct (equals (mode r) (Some "create")) eqn:Ec.
    + apply equals_eq in Ec. split.
      * intros [H|[]]. discriminate.
      * intros [H _]. rewrite Ec in H. discriminate.
    + destruct (equals (mode r) (Some "update")) eqn:Eu.
      * apply equals_eq in Eu. split.
        -- intros [H|[]]. injection H as ->. now split.
        -- intros [_ H]. injection H as ->. now left.
      * apply equals_neq in Eu. split; [intros []|intros [H _]; contradiction].
  - split; [intros []|intros [_ H]; discriminate].
Qed.

Lemma In_run_write (appSync : AppSync) (files : Files) (config : Config)
    (deployed : list Deployed.Resolver) (tmpl : list MappingTemplate) (c : Call) :
  hasDuplicates ["dataSource"; "type"; "field"] (mappingTemplates config) = false ->
  snd (deployedResolvers appSync config) = Ok deployed ->
  snd (templating appSync files config) = Ok tmpl ->
  isWrite c = true ->
  In c (fst (createOrUpdateResolvers appSync files config))
  <-> exists r, In r tmpl /\ In c (writeOf config (resolverToDeploy deployed r)).
Proof.
  intros Hdup Hl Ht Hc. rewrite createOrUpdateResolvers_fst, Hdup, Hl, Ht. split.
  - intro H. apply in_app_or in H as [H|H].
    { pose proof (deployedResolvers_calls appSync config) as Hall.
      rewrite Forall_forall in Hall. apply Hall in H. destruct c; discriminate. }
    apply in_app_or in H as [H|H].
    { pose proof (templating_calls appSync files config) as Hall.
      rewrite Forall_forall in Hall. apply Hall in H. destruct c; discriminate. }
    apply in_concat in H as [t [Ht' H]].
    apply in_map_iff in Ht' as [r1 [<- Hr1]]. apply in_map_iff in Hr1 as [r [<- Hr]].
    now exists r.
  - intros [r [Hr H]]. apply in_or_app. right. apply in_or_app. right.
    apply in_concat. exists (writeOf config (resolverToDeploy deployed r)).
    split; [|exact H]. now apply in_map, in_map.
Qed.

(** X5.  Once the listings and the template stage have succeeded,
    [createResolver] is called for exactly the declared resolvers of mode
    [create] whose parameters can be built, and [updateResolver] for exactly
    those of mode [update], with these parameters.  This holds whether the
    run then succeeds or fails: a sibling that is rejected, or a call that
    the service refuses, does not hold back the other writes. *)
Theorem writes_follow_modes
    (appSync : AppSync) (files : Files) (config : Config)
    (deployed : list Deployed.Resolver) (tmpl : list MappingTemplate) (p : ResolverParams) :
  hasDuplicates ["dataSource"; "type"; "field"] (mappingTemplates config) = false ->
  snd (deployedResolvers appSync config) = Ok deployed ->
  snd (templating appSync files config) = Ok tmpl ->
  (In (CreateResolver p) (fst (createOrUpdateResolvers appSync files config))
   <-> exists r, In r tmpl
                 /\ mode (resolverToDeploy deployed r) = Some "create"
                 /\ resolverParams config r = Ok p)
  /\ (In (UpdateResolver p) (fst (createOrUpdateResolvers appSync files config))
      <-> exists r, In r tmpl
                    /\ mode (resolverToDeploy deployed r) = Some "update"
                    /\ resolverParams config r = Ok p).
Proof.
  intros Hdup Hl Ht. split.
  - rewrite (In_run_write appSync files config deployed tmpl (CreateResolver p)
               Hdup Hl Ht eq_refl).
    split; intros [r [Hr H]]; exists r; (split; [exact Hr|]).
    + apply In_writeOf_create in H. now rewrite resolverParams_resolverToDeploy in H.
    + apply In_writeOf_create. now rewrite resolverParams_resolverToDeploy.
  - rewrite (In_run_write appSync files config deployed tmpl (UpdateResolver p)
               Hdup Hl Ht eq_refl).
    split; intros [r [Hr H]]; exists r; (split; [exact Hr|]).
    + apply In_writeOf_update in H. now rewrite resolverParams_resolverToDeploy in H.
    + apply In_writeOf_update. now rewrite resolverParams_resolverToDeploy.
Qed.

Lemma writes_follow_modes_witness :
  isRejected (snd (createOrUpdateResolvers (clientOf [] Sample.lambda) Sample.noFiles
                     Scenario.invalidThenValid)) = true
  /\ In (CreateResolver
           {| p_apiId := "api"; p_fieldName := Some "listItems";
              p_requestMappingTemplate := Some "req";
              p_responseMappingTemplate := Some "res";
              p_typeName := Some "Query"; p_kind := None;
              p_pipelineConfig := None; p_dataSourceName := Some "DS1" |})
        (fst (createOrUpdateResolvers (clientOf [] Sample.lambda) Sample.noFiles
                Scenario.invalidThenValid)).
Proof.
  split; [reflexivity|].
  apply (proj1 (writes_follow_modes (clientOf [] Sample.lambda) Sample.noFiles
                  Scenario.invalidThenValid []
                  [Sample.templated Sample.unitWithoutDataSource;
                   Sample.templated Sample.listItems]
                  _ eq_refl eq_refl eq_refl)).
  exists (Sample.templated Sample.listItems).
  split; [right; now left|]. split; reflexivity.
Defined.

(** X6.  When the service refuses the write of a declared resolver, the
    synchronization fails. *)
Theorem refused_write_fails_the_run
    (appSync : AppSync) (files : Files) (config : Config)
    (deployed : list Deployed.Resolver) (tmpl : list MappingTemplate)
    (r : MappingTemplate) (p : ResolverParams) (e : Error) :
  snd (deployedResolvers appSync config) = Ok deployed ->
  snd (templating appSync files config) = Ok tmpl ->
  In r tmpl ->
  resolverParams config r = Ok p ->
  (mode (resolverToDeploy deployed r) = Some "create" /\ createResolver appSync p = Some e)
  \/ (mode (resolverToDeploy deployed r) = Some "update" /\ updateResolver appSync p = Some e) ->
  isRejected (snd (createOrUpdateResolvers appSync files config)) = true.
Proof.
  intros Hl Ht Hr Hp Hrefused. rewrite createOrUpdateResolvers_stages.
  destruct (hasDuplicates _ _); [reflexivity|]. cbv zeta. rewrite Hl.
  change (promiseAll (map (resolverWithTemplates appSync files config)
                          (mappingTemplates config)))
    with (templating appSync files config).
  rewrite Ht. cbn [snd].
  apply (promiseAll_rejected _ (deployResolver appSync config (resolverToDeploy deployed r))).
  - now apply in_map, in_map.
  - rewrite deployResolver_cases, resolverParams_resolverToDeploy, Hp.
    destruct Hrefused as [[-> ->]|[-> ->]]; reflexivity.
Qed.

Lemma refused_write_fails_the_run_witness :
  isRejected (snd (createOrUpdateResolvers Scenario.createFails Sample.noFiles
                     (Sample.config [Sample.listItems] []))) = true.
Proof.
  apply (refused_write_fails_the_run Scenario.createFails Sample.noFiles
           (Sample.config [Sample.listItems] []) [] [Sample.templated Sample.listItems]
           (Sample.templated Sample.listItems)
           {| p_apiId := "api"; p_fieldName := Some "listItems";
              p_requestMappingTemplate := Some "req";
              p_responseMappingTemplate := Some "res";
              p_typeName := Some "Query"; p_kind := None;
              p_pipelineConfig := None; p_dataSourceName := Some "DS1" |}
           (ServiceError (Some "BadRequestException")));
    [reflexivity|reflexivity|now left|reflexivity|left; split; reflexivity].
Defined.

(** ** What a run returns *)

Lemma deployResolver_ok (appSync : AppSync) (config : Config) (r r' : MappingTemplate) :
  snd (deployResolver appSync config r) = Ok r' -> r' = r.
Proof.
  rewrite deployResolver_cases. destruct (resolverParams config r) as [p|e]; [|discriminate].
  destruct (equals (mode r) (Some "create")).
  { destruct (createResolver appSync p); cbn [snd]; [discriminate|congruence]. }
  destruct (equals (mode r) (Some "update")).
  { destruct (updateResolver appSync p); cbn [snd]; [discriminate|congruence]. }
  cbn [snd]. congruence.
Qed.

Lemma mode_is_one_of_three (S : list Deployed.Resolver) (r : MappingTemplate) :
  mode (resolverToDeploy S r) = Some "create"
  \/ mode (resolverToDeploy S r) = Some "update"
  \/ mode (resolverToDeploy S r) = Some "ignore".
Proof.
  rewrite mode_resolverToDeploy. destruct (find _ S) as [d|]; [|auto].
  destruct (equalsByKeys comparedKeys d r); auto.
Qed.

(** X7.  A synchronization that succeeds returns one resolver per declared
    resolver, in the order of the declaration; each keeps the dataSource,
    type, field, request, response, kind and pipelineConfig it was declared
    with and has one of the modes [create], [update] and [ignore]; and each
    passed the checks of the apply stage: a PIPELINE resolver has no
    dataSource, any other resolver has one. *)
Theorem result_follows_the_declaration
    (appSync : AppSync) (files : Files) (config : Config)
    (calls : list Call) (resolvers : list MappingTemplate) :
  createOrUpdateResolvers appSync files config = (calls, Ok resolvers) ->
  Forall2 (fun d r =>
             sameDeclaration d r
             /\ (mode r = Some "create" \/ mode r = Some "update" \/ mode r = Some "ignore")
             /\ (kind d = Some "PIPELINE" -> dataSource d = None)
             /\ (kind d <> Some "PIPELINE" -> dataSource d <> None))
          (mappingTemplates config) resolvers.
Proof.
  intro Hrun. rewrite createOrUpdateResolvers_stages in Hrun.
  destruct (hasDuplicates _ _); [discriminate|]. cbv zeta in Hrun.
  destruct (snd (deployedResolvers appSync config)) as [deployed|e]; [|discriminate].
  destruct (snd (promiseAll (map (resolverWithTemplates appSync files config) _)))
    as [tmpl|e] eqn:Et; [|discriminate].
  injection Hrun as _ Hres.
  apply Forall2_templated in Et.
  apply promiseAll_ok, Forall2_map_l, Forall2_map_l in Hres.
  revert resolvers Hres.
  induction Et as [|d t l tmpl [req [resp ->]] _ IH]; intros resolvers Hres;
    inversion Hres as [|t' r tmpl' rs Hr Hrs]; subst; constructor; [|now apply IH].
  pose proof (deployResolver_ok_params _ _ _ _ Hr) as [p Hp].
  apply deployResolver_ok in Hr. subst r.
  split; [now repeat split|]. split; [apply mode_is_one_of_three|].
  assert (Hvalid : isRejected (resolverParams config d) = false).
  { rewrite <- (resolverParams_staged config deployed d req resp), Hp. reflexivity. }
  split.
  - intro Hk. destruct (dataSource d) eqn:Ed; [|reflexivity].
    rewrite resolverParams_pipeline_dataSource in Hvalid; [discriminate|exact Hk|].
    rewrite Ed. discriminate.
  - intros Hk Hd.
    rewrite (resolverParams_unit_without_dataSource config d Hk Hd) in Hvalid.
    discriminate.
Qed.

Lemma result_follows_the_declaration_witness :
  Forall2 (fun d r =>
             sameDeclaration d r
             /\ (mode r = Some "create" \/ mode r = Some "update" \/ mode r = Some "ignore")
             /\ (kind d = Some "PIPELINE" -> dataSource d = None)
             /\ (kind d <> Some "PIPELINE" -> dataSource d <> None))
          (mappingTemplates Sample.twoFields)
          (Sample.resolved (Sample.firstRun Sample.twoFields)).
Proof.
  apply (result_follows_the_declaration (clientOf [Sample.deployedGetItem] Sample.lambda)
           Sample.noFiles Sample.twoFields (fst (Sample.firstRun Sample.twoFields))).
  reflexivity.
Defined.

(** ** Templates *)

Lemma orElse_kept (s b : string) : s <> EmptyString -> orElse (Some s) b = Some s.
Proof.
  intro H. unfold orElse. destruct (String.eqb s EmptyString) eqn:E; [|reflexivity].
  apply String.eqb_eq in E. contradiction.
Qed.

(** X8.  A template that is declared and not empty is never replaced: the
    resolver leaves the template stage with the text its declaration
    resolves to, whatever the other template is and whatever the type of its
    data source. *)
Theorem declared_template_is_kept
    (appSync : AppSync) (files : Files) (config : Config)
    (r r' : MappingTemplate) (s : string) :
  snd (resolverWithTemplates appSync files config r) = Ok r' ->
  s <> EmptyString ->
  (readIfFile files (request r) = Some s -> requestMappingTemplate r' = Some s)
  /\ (readIfFile files (response r) = Some s -> responseMappingTemplate r' = Some s).
Proof.
  intros Hok Hs. unfold resolverWithTemplates in Hok.
  destruct (isNil (readIfFile files (request r)) || isNil (readIfFile files (response r))).
  - rewrite await_fst_snd in Hok. unfold send in Hok. cbn [snd fst] in Hok.
    destruct (getDataSource appSync _) as [ds|e]; [|discriminate].
    destruct (equals (ds_type ds) (Some "AWS_LAMBDA")); cbn [snd resolve] in Hok;
      injection Hok as <-; cbn [requestMappingTemplate responseMappingTemplate mergeTemplates];
      split; intros ->; try reflexivity; now apply orElse_kept.
  - cbn [snd resolve] in Hok. injection Hok as <-.
    cbn [requestMappingTemplate responseMappingTemplate mergeTemplates]. split; auto.
Qed.

Lemma declared_template_is_kept_witness :
  exists r',
    snd (resolverWithTemplates (clientOf [] Sample.lambda) Scenario.files
           (Sample.config [Scenario.fromFile] []) Scenario.fromFile) = Ok r'
    /\ requestMappingTemplate r' = Some "#set($x = 1)".
Proof.
  eexists. split; [reflexivity|].
  apply (proj1 (declared_template_is_kept (clientOf [] Sample.lambda) Scenario.files
                  (Sample.config [Scenario.fromFile] []) Scenario.fromFile _
                  "#set($x = 1)" eq_refl ltac:(discriminate))).
  reflexivity.
Defined.

(** X9.  An empty template counts as missing only beside a missing one.  On
    a Lambda data source, a resolver whose request template is the empty
    string and whose response template is absent gets both default
    templates, the empty request template being replaced; with both
    templates declared, the empty one is kept and no data source is looked
    up. *)
Theorem empty_template_beside_a_missing_one
    (appSync : AppSync) (files : Files) (config : Config) (r : MappingTemplate) :
  readIfFile files (request r) = Some EmptyString ->
  (forall ds,
   readIfFile files (response r) = None ->
   getDataSource appSync {| gd_apiId := apiId config; gd_name := dataSource r |} = Ok ds ->
   ds_type ds = Some "AWS_LAMBDA" ->
   snd (resolverWithTemplates appSync files config r)
   = Ok (mergeTemplates r (Some lambdaRequestTemplate)
           (Some "$util.toJson($context.result)")))
  /\ (forall s,
      readIfFile files (response r) = Some s ->
      resolverWithTemplates appSync files config r
      = ([], Ok (mergeTemplates r (Some EmptyString) (Some s)))).
Proof.
  intro Hreq. unfold resolverWithTemplates. rewrite Hreq. split.
  - intros ds -> Hds Htype. cbn [isNil orb]. rewrite await_fst_snd. unfold send.
    cbn [snd fst]. rewrite Hds, Htype. reflexivity.
  - intros s ->. reflexivity.
Qed.

Lemma empty_template_beside_a_missing_one_witness :
  snd (resolverWithTemplates (clientOf [] Sample.lambda) Sample.noFiles
         (Sample.config [Scenario.emptyRequest] []) Scenario.emptyRequest)
  = Ok (mergeTemplates Scenario.emptyRequest (Some lambdaRequestTemplate)
          (Some "$util.toJson($context.result)"))
  /\ resolverWithTemplates (clientOf [] Sample.lambda) Sample.noFiles
       (Sample.config [Scenario.emptyRequestWithResponse] [])
       Scenario.emptyRequestWithResponse
     = ([], Ok (mergeTemplates Scenario.emptyRequestWithResponse
                  (Some EmptyString) (Some "res"))).
Proof.
  split.
  - apply (proj1 (empty_template_beside_a_missing_one (clientOf [] Sample.lambda)
                    Sample.noFiles (Sample.config [Scenario.emptyRequest] [])
                    Scenario.emptyRequest eq_refl)
             {| ds_type := Some "AWS_LAMBDA" |}); reflexivity.
  - apply (proj2 (empty_template_beside_a_missing_one (clientOf [] Sample.lambda)
                    Sample.noFiles (Sample.config [Scenario.emptyRequestWithResponse] [])
                    Scenario.emptyRequestWithResponse eq_refl)
             "res"). reflexivity.
Defined.

(** ** The parameters of a write *)

Lemma mapResult_ok {A B : Type} (f : A -> Result B) (l : list A) (l' : list B) :
  Forall2 (fun a b => f a = Ok b) l l' -> mapResult f l = Ok l'.
Proof.
  induction 1 as [|a b l l' Hab _ IH]; [reflexivity|]. simpl. now rewrite Hab, IH.
Qed.

Lemma mapResult_first_failure {A B : Type} (f : A -> Result B)
    (pre post : list A) (a : A) (e : Error) :
  Forall (fun x => exists b, f x = Ok b) pre ->
  f a = Rejected e ->
  mapResult f (pre ++ a :: post) = Rejected e.
Proof.
  intros Hpre Ha. induction Hpre as [|x pre [b Hx] _ IH]; simpl.
  - now rewrite Ha.
  - now rewrite Hx, IH.
Qed.

(** X10.  The functions of a pipeline resolver are sent as function ids, in
    the order of the declared names, each id being that of the first entry
    of [config.functions] with the name; the request has no
    [dataSourceName]. *)
Theorem pipeline_functions_are_sent_in_order
    (config : Config) (r : MappingTemplate) (names ids : list string) :
  kind r = Some "PIPELINE" ->
  dataSource r = None ->
  pipelineConfig r = Some {| functions := Some names |} ->
  Forall2 (fun n id => exists f,
             find (fun f => equals (name f) (Some n)) (configFunctions config) = Some f
             /\ functionId f = Some id)
          names ids ->
  resolverParams config r
  = Ok {| p_apiId := apiId config;
          p_fieldName := field r;
          p_requestMappingTemplate := requestMappingTemplate r;
          p_responseMappingTemplate := responseMappingTemplate r;
          p_typeName := type r;
          p_kind := Some "PIPELINE";
          p_pipelineConfig := Some {| functions := Some ids |};
          p_dataSourceName := None |}.
Proof.
  intros Hk Hd Hp Hids. unfold resolverParams, pipelineFunctionsOf.
  rewrite Hp, Hk, Hd. cbn [equals String.eqb Ascii.eqb Bool.eqb].
  assert (H : mapResult (functionIdOf config) names = Ok ids).
  { apply mapResult_ok. eapply Forall2_impl; [|exact Hids].
    intros n id [f [Hf Hid]]. unfold functionIdOf. now rewrite Hf, Hid. }
  rewrite H. reflexivity.
Qed.

Lemma pipeline_functions_are_sent_in_order_witness :
  resolverParams (Sample.config [Scenario.twoSteps]
                    [Scenario.loadFunction; Sample.auditFunction])
                 Scenario.twoSteps
  = Ok {| p_apiId := "api";
          p_fieldName := Some "getItem";
          p_requestMappingTemplate := None;
          p_responseMappingTemplate := None;
          p_typeName := Some "Query";
          p_kind := Some "PIPELINE";
          p_pipelineConfig := Some {| functions := Some ["fn-1"; "fn-2"] |};
          p_dataSourceName := None |}.
Proof.
  apply (pipeline_functions_are_sent_in_order
           (Sample.config [Scenario.twoSteps]
              [Scenario.loadFunction; Sample.auditFunction])
           Scenario.twoSteps ["audit"; "load"] ["fn-1"; "fn-2"]
           eq_refl eq_refl eq_refl).
  constructor; [exists Sample.auditFunction; split; reflexivity|].
  constructor; [exists Scenario.loadFunction; split; reflexivity|constructor].
Defined.

(** X11.  A resolver that is not of kind PIPELINE is sent with its
    dataSource as [dataSourceName] and without [pipelineConfig]: a
    [pipelineConfig] it declares is left out, and the function names in it
    are not looked up, so that unknown names there raise no error. *)
Theorem unit_resolver_sends_no_pipeline
    (config : Config) (r : MappingTemplate) (ds : string) :
  kind r <> Some "PIPELINE" ->
  dataSource r = Some ds ->
  resolverParams config r
  = Ok {| p_apiId := apiId config;
          p_fieldName := field r;
          p_requestMappingTemplate := requestMappingTemplate r;
          p_responseMappingTemplate := responseMappingTemplate r;
          p_typeName := type r;
          p_kind := kind r;
          p_pipelineConfig := None;
          p_dataSourceName := Some ds |}.
Proof.
  intros Hk Hd. apply equals_neq in Hk.
  unfold resolverParams, pipelineFunctionsOf. rewrite Hk, Hd.
  destruct (pipelineConfig r) as [[[names|]]|]; reflexivity.
Qed.

Lemma unit_resolver_sends_no_pipeline_witness :
  resolverParams (Sample.config [Scenario.unitWithPipelineConfig] [])
                 Scenario.unitWithPipelineConfig
  = Ok {| p_apiId := "api";
          p_fieldName := Some "getItem";
          p_requestMappingTemplate := None;
          p_responseMappingTemplate := None;
          p_typeName := Some "Query";
          p_kind := Some "UNIT";
          p_pipelineConfig := None;
          p_dataSourceName := Some "DS1" |}.
Proof.
  apply (unit_resolver_sends_no_pipeline
           (Sample.config [Scenario.unitWithPipelineConfig] [])
           Scenario.unitWithPipelineConfig "DS1"); [discriminate|reflexivity].
Defined.

(** X12.  The functions of a pipeline resolver are looked up in the order of
    the declared names, before the dataSource is checked, and the first name
    that does not resolve decides the error: a [TypeError] when
    [config.functions] holds no entry of that name, the message that the
    function must exist when the first entry of that name has no
    [functionId].  A dataSource set on the resolver does not change the
    error. *)
Theorem first_unresolved_function_decides_the_error
    (config : Config) (r : MappingTemplate) (pre post : list string) (n : string) :
  kind r = Some "PIPELINE" ->
  pipelineConfig r = Some {| functions := Some (pre ++ n :: post) |} ->
  Forall (fun m => exists f id, functionNamed config m = Some f /\ functionId f = Some id)
         pre ->
  (functionNamed config n = None -> resolverParams config r = Rejected TypeError)
  /\ (forall f, functionNamed config n = Some f -> functionId f = None ->
      resolverParams config r
      = Rejected (Thrown ("A function " ++ quoted n
                   ++ " must exist before referencing them to a Pipeline Resolver."
                   ++ dquote)%string)).
Proof.
  intros Hk Hp Hpre.
  assert (Hpre' : Forall (fun m => exists id, functionIdOf config m = Ok id) pre).
  { eapply Forall_impl; [|exact Hpre]. intros m [f [id [Hf Hid]]].
    exists id. unfold functionIdOf. unfold functionNamed in Hf. now rewrite Hf, Hid. }
  assert (Hfail : forall e, functionIdOf config n = Rejected e ->
                            resolverParams config r = Rejected e).
  { intros e He. unfold resolverParams, pipelineFunctionsOf. rewrite Hp, Hk.
    cbn [equals String.eqb Ascii.eqb Bool.eqb].
    now rewrite (mapResult_first_failure (functionIdOf config) pre post n e Hpre' He). }
  split.
  - intro Hn. apply Hfail. unfold functionIdOf. unfold functionNamed in Hn. now rewrite Hn.
  - intros f Hf Hid. apply Hfail. unfold functionIdOf. unfold functionNamed in Hf.
    now rewrite Hf, Hid.
Qed.

Lemma first_unresolved_function_decides_the_error_witness :
  resolverParams (Sample.config [Scenario.twoSteps] [Sample.auditFunction])
                 Scenario.twoSteps
  = Rejected TypeError
  /\ resolverParams (Sample.config [Scenario.twoSteps]
                       [Sample.auditFunction; Scenario.pendingFunction;
                        Scenario.loadFunction])
                    Scenario.twoSteps
     = Rejected (Thrown (functionMustExist "load")).
Proof.
  split.
  - assert (Hpre : Forall (fun m => exists f id,
                             functionNamed (Sample.config [Scenario.twoSteps]
                                              [Sample.auditFunction]) m = Some f
                             /\ functionId f = Some id) ["audit"]).
    { constructor; [|constructor].
      exists Sample.auditFunction, "fn-1". split; reflexivity. }
    apply (proj1 (first_unresolved_function_decides_the_error
                    (Sample.config [Scenario.twoSteps] [Sample.auditFunction])
                    Scenario.twoSteps ["audit"] [] "load" eq_refl eq_refl Hpre)).
    reflexivity.
  - assert (Hpre : Forall (fun m => exists f id,
                             functionNamed (Sample.config [Scenario.twoSteps]
                                              [Sample.auditFunction;
                                               Scenario.pendingFunction;
                                               Scenario.loadFunction]) m = Some f
                             /\ functionId f = Some id) ["audit"]).
    { constructor; [|constructor].
      exists Sample.auditFunction, "fn-1". split; reflexivity. }
    apply (proj2 (first_unresolved_function_decides_the_error
                    (Sample.config [Scenario.twoSteps]
                       [Sample.auditFunction; Scenario.pendingFunction;
                        Scenario.loadFunction])
                    Scenario.twoSteps ["audit"] [] "load" eq_refl eq_refl Hpre)
             Scenario.pendingFunction); reflexivity.
Defined.

(** ** Removal *)

Lemma differenceFrom_all_filtered (toFilterOut first : list MappingTemplate) :
  (forall x, In x first -> In x toFilterOut) -> differenceFrom toFilterOut first = [].
Proof.
  induction first as [|a first IH]; intro H; [reflexivity|].
  simpl.
  assert (E : existsb (MappingTemplate_eqb a) toFilterOut = true).
  { apply existsb_exists. exists a. split; [apply H; now left|].
    now apply MappingTemplate_eqb_eq. }
  rewrite E. apply IH. intros x Hx. apply H. now right.
Qed.

Lemma differenceFrom_length (toFilterOut first : list MappingTemplate) :
  length (differenceFrom toFilterOut first) <= length first.
Proof.
  revert toFilterOut. induction first as [|a first IH]; intro toFilterOut; simpl; [lia|].
  destruct (existsb (MappingTemplate_eqb a) toFilterOut).
  - specialize (IH toFilterOut). lia.
  - simpl. specialize (IH (a :: toFilterOut)). lia.
Qed.

(** X13.  When every entry of the state is the (type, field) pair of a
    declared resolver, as when the state holds the projected declaration of
    the same configuration, or when the state is empty, the removal issues
    no call and succeeds. *)
Theorem nothing_is_removed_when_state_is_declared
    (appSync : AppSync) (config : Config) (state : State) :
  (forall r, In r (stateMappingTemplates state) ->
             In r (map (pick ["type"; "field"]) (mappingTemplates config))) ->
  removeObsoleteResolvers appSync config state = ([], Ok tt).
Proof.
  intro H. unfold removeObsoleteResolvers, obsoleteResolvers, difference, defaultToAnArray.
  now rewrite (differenceFrom_all_filtered _ _ H).
Qed.

Lemma nothing_is_removed_when_state_is_declared_witness :
  removeObsoleteResolvers (Sample.failingDelete (Some "Throttled")) Sample.twoFields
    {| stateMappingTemplates :=
         map (pick ["type"; "field"]) (mappingTemplates Sample.twoFields) |}
  = ([], Ok tt).
Proof.
  apply (nothing_is_removed_when_state_is_declared
           (Sample.failingDelete (Some "Throttled")) Sample.twoFields
           {| stateMappingTemplates :=
                map (pick ["type"; "field"]) (mappingTemplates Sample.twoFields) |}).
  intros r Hr. exact Hr.
Defined.

(** X14.  The removal issues [deleteResolver] calls only, at most one per
    entry of the state, and the calls it issues do not depend on what the
    service answers: a delete that fails does not hold back the others. *)
Theorem removal_only_deletes
    (appSync appSync' : AppSync) (config : Config) (state : State) :
  Forall (fun c => isDelete c = true) (fst (removeObsoleteResolvers appSync config state))
  /\ length (fst (removeObsoleteResolvers appSync config state))
     <= length (stateMappingTemplates state)
  /\ fst (removeObsoleteResolvers appSync config state)
     = fst (removeObsoleteResolvers appSync' config state).
Proof.
  rewrite !removeObsoleteResolvers_fst. split; [|split; [|reflexivity]].
  - apply Forall_map, Forall_forall. reflexivity.
  - rewrite length_map. apply differenceFrom_length.
Qed.

(** ** What is written, and where *)

Lemma writeOf_length (config : Config) (r : MappingTemplate) :
  length (writeOf config r) <= 1.
Proof.
  unfold writeOf. destruct (resolverParams config r); [|simpl; lia].
  destruct (equals (mode r) (Some "create")); [simpl; lia|].
  destruct (equals (mode r) (Some "update")); simpl; lia.
Qed.

Lemma writes_length (config : Config) (l : list MappingTemplate) :
  length (concat (map (writeOf config) l)) <= length l.
Proof.
  induction l as [|r l IH]; [simpl; lia|].
  simpl. rewrite length_app. pose proof (writeOf_length config r). lia.
Qed.

(** X15.  A synchronization issues at most one write per declared
    resolver, whatever the client answers. *)
Theorem at_most_one_write_per_declared_resolver
    (appSync : AppSync) (files : Files) (config : Config) :
  length (filter isWrite (fst (createOrUpdateResolvers appSync files config)))
  <= length (mappingTemplates config).
Proof.
  rewrite createOrUpdateResolvers_fst.
  destruct (hasDuplicates _ _); [simpl; lia|].
  rewrite filter_app.
  rewrite (filter_none isWrite isListResolvers);
    [|apply deployedResolvers_calls|now intros []].
  destruct (snd (deployedResolvers appSync config)) as [deployed|e]; [|simpl; lia].
  rewrite filter_app.
  rewrite (filter_none isWrite isGetDataSource);
    [|apply templating_calls|now intros []].
  destruct (snd (templating appSync files config)) as [tmpl|e] eqn:Et; [|simpl; lia].
  rewrite (filter_all isWrite) by apply writes_calls.
  cbn [app]. pose proof (writes_length config (map (resolverToDeploy deployed) tmpl)) as H.
  rewrite length_map in H.
  apply Forall2_templated, Forall2_length in Et. unfold defaultToAnArray in Et. lia.
Qed.

Lemma mode_create_inv (S : list Deployed.Resolver) (r : MappingTemplate) :
  mode (resolverToDeploy S r) = Some "create" -> find (sameTypeAndField r) S = None.
Proof.
  rewrite mode_resolverToDeploy. destruct (find _ S) as [d|]; [|reflexivity].
  destruct (equalsByKeys comparedKeys d r); discriminate.
Qed.

Lemma mode_update_inv (S : list Deployed.Resolver) (r : MappingTemplate) :
  mode (resolverToDeploy S r) = Some "update" ->
  exists d, find (sameTypeAndField r) S = Some d /\ ~ sameCompared d r.
Proof.
  rewrite mode_resolverToDeploy. destruct (find _ S) as [d|]; [|discriminate].
  destruct (equalsByKeys comparedKeys d r) eqn:E; [discriminate|].
  intros _. exists d. split; [reflexivity|].
  intro H. apply equalsByKeys_sameCompared in H. congruence.
Qed.

(** X16.  Once the listings and the template stage have succeeded, a
    [createResolver] call is never sent for a type and field that one of the
    fetched resolvers has, and an [updateResolver] call is only sent for a
    type and field that a fetched resolver has. *)
Theorem create_is_for_new_keys_update_for_fetched_ones
    (appSync : AppSync) (files : Files) (config : Config)
    (deployed : list Deployed.Resolver) (tmpl : list MappingTemplate) (p : ResolverParams) :
  hasDuplicates ["dataSource"; "type"; "field"] (mappingTemplates config) = false ->
  snd (deployedResolvers appSync config) = Ok deployed ->
  snd (templating appSync files config) = Ok tmpl ->
  (In (CreateResolver p) (fst (createOrUpdateResolvers appSync files config)) ->
   forall d, In d deployed ->
             ~ (Aws.typeName (Deployed.resolver d) = p_typeName p
                /\ Aws.fieldName (Deployed.resolver d) = p_fieldName p))
  /\ (In (UpdateResolver p) (fst (createOrUpdateResolvers appSync files config)) ->
      exists d, In d deployed
                /\ Aws.typeName (Deployed.resolver d) = p_typeName p
                /\ Aws.fieldName (Deployed.resolver d) = p_fieldName p).
Proof.
  intros Hdup Hl Ht.
  assert (Haliases : forall d, In d deployed ->
            Deployed.type d = Aws.typeName (Deployed.resolver d)
            /\ Deployed.field d = Aws.fieldName (Deployed.resolver d)).
  { pose proof Hl as Hl'. apply deployedResolvers_snd in Hl' as [lists [_ ->]].
    intros d Hd. apply in_map_iff in Hd as [x [<- _]]. now split. }
  split.
  - intro Hin.
    apply (In_run_write appSync files config deployed tmpl (CreateResolver p)
             Hdup Hl Ht eq_refl) in Hin as [r [Hr Hw]].
    apply In_writeOf_create in Hw as [Hm Hp].
    rewrite resolverParams_resolverToDeploy in Hp.
    apply resolverParams_key in Hp as [Hty [Hf _]].
    apply mode_create_inv in Hm.
    intros d Hd [Hdt Hdf].
    pose proof (find_none _ _ Hm d Hd) as Hno.
    destruct (Haliases d Hd) as [Ha1 Ha2].
    assert (Hyes : sameTypeAndField r d = true).
    { apply sameTypeAndField_eq. split; congruence. }
    congruence.
  - intro Hin.
    apply (In_run_write appSync files config deployed tmpl (UpdateResolver p)
             Hdup Hl Ht eq_refl) in Hin as [r [Hr Hw]].
    apply In_writeOf_update in Hw as [Hm Hp].
    rewrite resolverParams_resolverToDeploy in Hp.
    apply resolverParams_key in Hp as [Hty [Hf _]].
    apply mode_update_inv in Hm as [d [Hfind _]].
    apply find_some in Hfind as [Hd Hkey].
    apply sameTypeAndField_eq in Hkey as [Hk1 Hk2].
    destruct (Haliases d Hd) as [Ha1 Ha2].
    exists d. split; [exact Hd|]. split; congruence.
Qed.

Lemma create_is_for_new_keys_update_for_fetched_ones_witness :
  exists d,
    In d [withAliases Sample.staleGetItem; withAliases Sample.staleGetItem]
    /\ Aws.typeName (Deployed.resolver d) = Some "Query"
    /\ Aws.fieldName (Deployed.resolver d) = Some "getItem".
Proof.
  apply (proj2 (create_is_for_new_keys_update_for_fetched_ones
                  (clientOf [Sample.staleGetItem] Sample.lambda) Sample.noFiles
                  Sample.twoFields
                  [withAliases Sample.staleGetItem; withAliases Sample.staleGetItem]
                  [Sample.templated Sample.getItem; Sample.templated Sample.listItems]
                  {| p_apiId := "api"; p_fieldName := Some "getItem";
                     p_requestMappingTemplate := Some "req";
                     p_responseMappingTemplate := Some "res";
                     p_typeName := Some "Query"; p_kind := None;
                     p_pipelineConfig := None; p_dataSourceName := Some "DS1" |}
                  eq_refl eq_refl eq_refl)).
  right; right. now left.
Defined.
